(** * puppeteer-cli: a shallow embedding of [index.js]

    The command-line driver turns an HTML page (URL or local file) into a
    PDF or a PNG through a headless browser.  This development embeds the
    option translators ([buildLaunchOptions], [buildNavigationOptions],
    [buildCookies]), the three operations ([print], [screenshot],
    [bulkPrint]) and their yargs handlers, and states the properties of
    the specification against them.

    Strings are Rocq [string]s; the only characters the code inspects
    (':', 'x', 'X', the decimal digits, the backslash and the double
    quote) are ASCII, so splitting positions agree with those of the
    UTF-16 strings of the runtime.  Asynchronous calls are awaited one
    after the other in the source, hence they are modelled as sequential
    steps of a state-and-error monad that records each call to the
    outside world (browser engine, standard output, file system). *)

From Stdlib Require Import String Ascii List ZArith Bool Lia.
Import ListNotations.
Local Open Scope string_scope.
Local Open Scope list_scope.
Local Open Scope Z_scope.

Set Implicit Arguments.

(* ================================================================== *)
(** ** JavaScript values used by the program *)

(** A thrown JavaScript error: its [name] ("Error", "TypeError", ...) and
    its [message]. *)
Record Error : Type := mkError { err_name : string; err_message : string }.

(** Result of evaluating a pure expression that may throw. *)
Inductive Completion (A : Type) : Type :=
| Normal (a : A)
| Throws (e : Error).
Arguments Normal {A} a.
Arguments Throws {A} e.

(** Bytes of a rendered document. *)
Definition Buffer : Type := list Byte.byte.

(** Truthiness of an optional string: [undefined] and the empty string are
    falsy. *)
Definition truthy (s : option string) : bool :=
  match s with
  | None => false
  | Some EmptyString => false
  | Some (String _ _) => true
  end.

(** Truthiness of a string: [!!s]. *)
Definition truthyString (s : string) : bool := truthy (Some s).

(** [x || null] on an optional string. *)
Definition orNull (s : option string) : option string :=
  if truthy s then s else None.

Definition colon : ascii := ":"%char.
Definition backslash : ascii := "092"%char.
Definition dquote : ascii := "034"%char.

(** [String.prototype.indexOf] for a one-character needle: the offset of
    the first occurrence, or [-1]. *)
Fixpoint indexOfFrom (c : ascii) (s : string) (i : Z) : Z :=
  match s with
  | EmptyString => -1
  | String a rest => if Ascii.eqb a c then i else indexOfFrom c rest (i + 1)
  end.

Definition indexOf (s : string) (c : ascii) : Z := indexOfFrom c s 0.

(** Does the character [c] occur in [s]? *)
Fixpoint hasChar (c : ascii) (s : string) : bool :=
  match s with
  | EmptyString => false
  | String a rest => Ascii.eqb a c || hasChar c rest
  end.

(** [String.prototype.substr(start, length)]; [None] is an omitted length. *)
Definition substr (s : string) (start : Z) (len : option Z) : string :=
  let size := Z.of_nat (String.length s) in
  let st := if start <? 0 then Z.max (size + start) 0 else Z.min start size in
  let ln := match len with
            | None => size - st
            | Some l => Z.min (Z.max l 0) (size - st)
            end in
  String.substring (Z.to_nat st) (Z.to_nat ln) s.

(** The [replace] applied to the footer template of a batch entry: its
    global regular expression matches a backslash followed by a double
    quote, and every occurrence, scanning from the left, is replaced by a
    double quote. *)
Fixpoint unescapeQuotes (s : string) : string :=
  match s with
  | EmptyString => EmptyString
  | String a rest =>
      match rest with
      | String b rest' =>
          if Ascii.eqb a backslash && Ascii.eqb b dquote
          then String dquote (unescapeQuotes rest')
          else String a (unescapeQuotes rest)
      | EmptyString => String a EmptyString
      end
  end.

(* ================================================================== *)
(** ** Option translators *)

Record LaunchOptions : Type := mkLaunchOptions { args : list string }.

Record NavigationOptions : Type :=
  mkNavigationOptions { nav_timeout : Z; nav_waitUntil : string }.

Record Cookie : Type :=
  mkCookie { cookie_name : string; cookie_value : string; cookie_url : string }.

(** [buildLaunchOptions({ sandbox })]. *)
Definition buildLaunchOptions (sandbox : bool) : LaunchOptions :=
  let args : list string := [] in
  let args := if Bool.eqb sandbox false
              then args ++ ["--no-sandbox"; "--disable-setuid-sandbox"]
              else args in
  mkLaunchOptions args.

(** [buildNavigationOptions({ timeout, waitUntil })]. *)
Definition buildNavigationOptions (timeout : Z) (waitUntil : string)
  : NavigationOptions :=
  mkNavigationOptions timeout waitUntil.

Definition cookieError : Error := mkError "Error" "cookie must contain : delimiter".

(** The callback mapped over [[cookie]] in [buildCookies]. *)
Definition buildCookie (url cookieString : string) : Completion Cookie :=
  let delimiterOffset := indexOf cookieString colon in
  if delimiterOffset =? -1 then Throws cookieError
  else
    let name := substr cookieString 0 (Some delimiterOffset) in
    let value := substr cookieString (delimiterOffset + 1) None in
    Normal (mkCookie name value url).

(** [Array.prototype.map] with a callback that may throw: the first throw
    aborts the whole map. *)
Fixpoint mapThrowing {A B : Type} (f : A -> Completion B) (l : list A)
  : Completion (list B) :=
  match l with
  | [] => Normal []
  | a :: l' =>
      match f a with
      | Throws e => Throws e
      | Normal b =>
          match mapThrowing f l' with
          | Throws e => Throws e
          | Normal bs => Normal (b :: bs)
          end
      end
  end.

(** [buildCookies({ url, cookie })]. *)
Definition buildCookies (url cookie : string) : Completion (list Cookie) :=
  mapThrowing (buildCookie url) [cookie].

(* ================================================================== *)
(** ** The viewport specification *)

(** A JavaScript number holding a non-negative integer, an infinity or NaN. *)
Inductive Number : Type :=
| Finite (z : Z)
| Infinity
| NaN.

Definition isDigit (c : ascii) : bool :=
  let n := nat_of_ascii c in (48 <=? n)%nat && (n <=? 57)%nat.

Fixpoint allDigits (s : string) : bool :=
  match s with
  | EmptyString => true
  | String c rest => isDigit c && allDigits rest
  end.

(** Longest prefix of decimal digits, and what follows it. *)
Fixpoint spanDigits (s : string) : string * string :=
  match s with
  | EmptyString => (EmptyString, EmptyString)
  | String c rest =>
      if isDigit c
      then let (ds, tl) := spanDigits rest in (String c ds, tl)
      else (EmptyString, s)
  end.

(** [s.match(/^(?<width>\d+)[xX](?<height>\d+)$/)], giving the two named
    groups.  [\d+] is greedy and the character after it must be [x] or
    [X], which is no digit, so the first group is the longest digit prefix
    and no backtracking can succeed; [$] without the [m] flag is the end
    of the string. *)
Definition matchViewport (s : string) : option (string * string) :=
  let (width, rest) := spanDigits s in
  match width, rest with
  | String _ _, String sep height =>
      if (Ascii.eqb sep "x" || Ascii.eqb sep "X")
         && allDigits height && negb (String.eqb height EmptyString)
      then Some (width, height)
      else None
  | _, _ => None
  end.

Definition digitValue (c : ascii) : Z := Z.of_nat (nat_of_ascii c) - 48.

Fixpoint decimalValue (acc : Z) (s : string) : Z :=
  match s with
  | EmptyString => acc
  | String c rest => decimalValue (10 * acc + digitValue c) rest
  end.

(** The Number value of a non-negative mathematical integer: itself below
    [2^53], otherwise the nearest double (ties to even), or [Infinity]. *)
Definition toDouble (n : Z) : Number :=
  if n <? 2 ^ 53 then Finite n
  else
    let e := Z.log2 n - 52 in
    let q := n / 2 ^ e in
    let r := n mod 2 ^ e in
    let half := 2 ^ (e - 1) in
    let q' := if (half <? r) || ((r =? half) && Z.odd q) then q + 1 else q in
    if 2 ^ 1024 <=? q' * 2 ^ e then Infinity else Finite (q' * 2 ^ e).

(** [parseInt(s)] for a string that starts with neither white space, a
    sign nor a [0x] prefix (the regular expression hands it decimal digits
    only): the value of the leading digits, [NaN] when there is none. *)
Definition parseInt (s : string) : Number :=
  let (digits, _) := spanDigits s in
  match digits with
  | EmptyString => NaN
  | String _ _ => toDouble (decimalValue 0 digits)
  end.

Record Viewport : Type := mkViewport { width : Number; height : Number }.

(* ================================================================== *)
(** ** Parsed command lines, engine options and the batch manifest *)

Module Argv.
(** The object yargs hands to a handler.  The record has the keys of the
    three commands; a handler reads the keys of its own command only.
    [None] is [undefined]. *)
Record t : Type := mk {
  sandbox : bool;
  timeout : Z;
  waitUntil : string;
  cookie : option string;
  url : string;
  output : option string;
  batchFile : string;
  background : bool;
  marginTop : string;
  marginRight : string;
  marginBottom : string;
  marginLeft : string;
  format : string;
  landscape : bool;
  displayHeaderFooter : bool;
  headerTemplate : string;
  footerTemplate : string;
  fullPage : bool;
  omitBackground : bool;
  viewport : option string
}.
End Argv.

Module Pdf.
Record Margin : Type := mkMargin {
  top : string; right : string; bottom : string; left : string
}.
(** The object literal passed to [page.pdf]. *)
Record Options : Type := mk {
  path : option string;
  format : string;
  landscape : bool;
  printBackground : bool;
  margin : Margin;
  displayHeaderFooter : bool;
  headerTemplate : option string;
  footerTemplate : string
}.
End Pdf.

Module Shot.
(** The object literal passed to [page.screenshot]. *)
Record Options : Type := mk {
  path : option string;
  fullPage : bool;
  omitBackground : bool
}.
End Shot.

Module Manifest.
(** Entries of the [data] array of the batch file, typed as the manifest
    schema has them. *)
Record PdfObject : Type := mkPdfObject {
  isLandscape : bool;
  footerTemplate : string;
  footerHeight : string
}.
Record Entry : Type := mkEntry {
  htmlFile : string;
  tmpPDFFile : string;
  pdfObject : PdfObject
}.
End Manifest.

(* ================================================================== *)
(** ** Flag schemas of the three commands *)

Inductive FlagDefault : Type :=
| NoDefault
| DefaultBool (b : bool)
| DefaultNumber (n : Z)
| DefaultString (s : string).

Inductive FlagType : Type := Untyped | BooleanFlag | NumberFlag | StringFlag.

Record Flag : Type := mkFlag { flag_type : FlagType; flag_default : FlagDefault }.

Definition Builder : Type := list (string * Flag).

Definition commonOptions : Builder :=
  [ ("sandbox", mkFlag BooleanFlag (DefaultBool false));
    ("timeout", mkFlag NumberFlag (DefaultNumber (30 * 1000)));
    ("wait-until", mkFlag StringFlag (DefaultString "load"));
    ("cookie", mkFlag StringFlag NoDefault) ].

Definition bulkPrintBuilder : Builder :=
  (commonOptions ++
   [ ("background", mkFlag BooleanFlag (DefaultBool true));
     ("margin-top", mkFlag Untyped (DefaultString "6.25mm"));
     ("margin-right", mkFlag Untyped (DefaultString "6.25mm"));
     ("margin-bottom", mkFlag Untyped (DefaultString "14.11mm"));
     ("margin-left", mkFlag Untyped (DefaultString "6.25mm"));
     ("format", mkFlag Untyped (DefaultString "A4")) ]).

Definition printBuilder : Builder :=
  (commonOptions ++
   [ ("background", mkFlag BooleanFlag (DefaultBool true));
     ("margin-top", mkFlag Untyped (DefaultString "6.25mm"));
     ("margin-right", mkFlag Untyped (DefaultString "6.25mm"));
     ("margin-bottom", mkFlag Untyped (DefaultString "14.11mm"));
     ("margin-left", mkFlag Untyped (DefaultString "6.25mm"));
     ("format", mkFlag Untyped (DefaultString "Letter"));
     ("landscape", mkFlag BooleanFlag (DefaultBool false));
     ("display-header-footer", mkFlag BooleanFlag (DefaultBool false));
     ("header-template", mkFlag StringFlag (DefaultString EmptyString));
     ("footer-template", mkFlag StringFlag (DefaultString EmptyString)) ]).

Definition screenshotBuilder : Builder :=
  (commonOptions ++
   [ ("full-page", mkFlag BooleanFlag (DefaultBool true));
     ("omit-background", mkFlag BooleanFlag (DefaultBool false));
     ("viewport", mkFlag StringFlag NoDefault) ]).

(** Lookup of a flag in a builder object. *)
Fixpoint flagOf (name : string) (b : Builder) : option Flag :=
  match b with
  | [] => None
  | (k, f) :: rest => if String.eqb k name then Some f else flagOf name rest
  end.

(* ================================================================== *)
(** ** Calls to the outside world and the monad of the handlers *)

(** The awaited calls of [index.js], with their arguments. *)
Inductive Call : Type :=
| ReadBatchFile (path : string)      (* fs.readFileSync, then JSON.parse(..)["data"] *)
| Launch (o : LaunchOptions)         (* puppeteer.launch *)
| NewPage                            (* browser.newPage *)
| SetViewport (v : Viewport)         (* page.setViewport *)
| SetCookie (cs : list Cookie)       (* page.setCookie *)
| Goto (url : string) (o : NavigationOptions)   (* page.goto *)
| PagePdf (o : Pdf.Options)          (* page.pdf *)
| PageScreenshot (o : Shot.Options)  (* page.screenshot *)
| StdoutWrite (b : Buffer)           (* process.stdout.write *)
| Sleep (ms : Z)                     (* sleep *)
| BrowserClose                       (* browser.close *)
| ConsoleLog (label : string) (err : Error).   (* console.log *)

(** How a call ended. *)
Inductive Reply : Type :=
| Completed
| Produced (b : Buffer)
| Threw (e : Error).

Record Event : Type := Ev { ev_call : Call; ev_reply : Reply }.

(** The outside world.  Each answer may depend on everything that
    happened before.  [fails h c] is the error call [c] raises after
    history [h], if any; [renders h c] is the buffer a render call
    resolves to when it does not raise; [batchData path] is what the
    loop of [bulkPrint] finds under the [data] key of the document stored
    at [path]: [Some entries] for an array of entries (the empty string
    is iterated like the empty array), [None] for a value that cannot be
    iterated, that is a missing key, [null], a number, a boolean or a
    plain object. *)
Record Engine : Type := mkEngine {
  fails : list Event -> Call -> option Error;
  renders : list Event -> Call -> Buffer;
  batchData : string -> option (list Manifest.Entry)
}.

(** How a computation ends: it returns, an exception propagates out of it,
    or [process.exit] stopped the process. *)
Inductive Outcome (A : Type) : Type :=
| Returned (a : A)
| Raised (e : Error)
| Exited (code : Z).
Arguments Returned {A} a.
Arguments Raised {A} e.
Arguments Exited {A} code.

(** A computation reads the engine and the history so far, and yields its
    outcome with the events it added, oldest first. *)
Definition M (A : Type) : Type := Engine -> list Event -> Outcome A * list Event.

Definition ret {A : Type} (a : A) : M A := fun _ _ => (Returned a, []).

Definition bind {A B : Type} (m : M A) (k : A -> M B) : M B :=
  fun eng h =>
    match m eng h with
    | (Returned a, t1) =>
        let (o, t2) := k a eng (h ++ t1) in (o, t1 ++ t2)
    | (Raised e, t1) => (Raised e, t1)
    | (Exited c, t1) => (Exited c, t1)
    end.

Declare Scope js_scope.
Delimit Scope js_scope with js.
Notation "x <- m ;; k" := (bind m (fun x => k))
  (at level 100, m at next level, right associativity) : js_scope.
Notation "m ;; k" := (bind m (fun _ => k))
  (at level 100, right associativity) : js_scope.
Local Open Scope js_scope.

(** [throw e]. *)
Definition throw {A : Type} (e : Error) : M A := fun _ _ => (Raised e, []).

(** [process.exit(code)]: nothing after it runs, not even a [catch]. *)
Definition processExit {A : Type} (code : Z) : M A := fun _ _ => (Exited code, []).

(** [await c] for a call resolving to no value of interest. *)
Definition call (c : Call) : M unit :=
  fun eng h =>
    match fails eng h c with
    | Some e => (Raised e, [Ev c (Threw e)])
    | None => (Returned tt, [Ev c Completed])
    end.

(** [await c] for a render call resolving to a buffer. *)
Definition callBuffer (c : Call) : M Buffer :=
  fun eng h =>
    match fails eng h c with
    | Some e => (Raised e, [Ev c (Threw e)])
    | None => (Returned (renders eng h c), [Ev c (Produced (renders eng h c))])
    end.

(** [JSON.parse(fs.readFileSync(path))["data"]]. *)
Definition readBatchData (path : string) : M (option (list Manifest.Entry)) :=
  fun eng h =>
    match fails eng h (ReadBatchFile path) with
    | Some e => (Raised e, [Ev (ReadBatchFile path) (Threw e)])
    | None => (Returned (batchData eng path), [Ev (ReadBatchFile path) Completed])
    end.

(** [console.log(label, err)]. *)
Definition consoleLog (label : string) (err : Error) : M unit :=
  fun _ _ => (Returned tt, [Ev (ConsoleLog label err) Completed]).

(** A pure expression that may throw, evaluated inside a handler. *)
Definition eval {A : Type} (c : Completion A) : M A :=
  match c with
  | Normal a => ret a
  | Throws e => throw e
  end.

(** [try { m } catch (err) { handler err }]. *)
Definition tryCatch {A : Type} (m : M A) (handler : Error -> M A) : M A :=
  fun eng h =>
    match m eng h with
    | (Raised e, t1) =>
        let (o, t2) := handler e eng (h ++ t1) in (o, t1 ++ t2)
    | r => r
    end.

(** [if (s) { k s }] on an optional string. *)
Definition whenTruthy (s : option string) (k : string -> M unit) : M unit :=
  match s with
  | Some v => if truthyString v then k v else ret tt
  | None => ret tt
  end.

(** A whole run, from the empty history. *)
Definition run {A : Type} (m : M A) (eng : Engine) : Outcome A * list Event :=
  m eng [].

(** The error [for (const pdf of config)] throws when [config] cannot be
    iterated. *)
Definition notIterable : Error := mkError "TypeError" "config is not iterable".

(* ================================================================== *)
(** ** The three operations and their handlers *)

Section Driver.

(** The npm helpers [is-url], [url-parse] and [file-url]. *)
Variable Url : Type.
Variable isUrl : string -> bool.
Variable parseUrl : string -> Url.
Variable toString : Url -> string.
Variable fileUrl : string -> string.

(** The object literal of the [page.pdf] call of [bulkPrint], for the
    entry [pdf] of the manifest. *)
Definition bulkPdfOptions (argv : Argv.t) (pdf : Manifest.Entry) : Pdf.Options :=
  let pdfFile := Manifest.tmpPDFFile pdf in
  let displayFooter := truthyString (Manifest.footerTemplate (Manifest.pdfObject pdf)) in
  {| Pdf.path := Some pdfFile;
     Pdf.format := Argv.format argv;
     Pdf.landscape := Manifest.isLandscape (Manifest.pdfObject pdf);
     Pdf.printBackground := true;
     Pdf.margin :=
       {| Pdf.top := Argv.marginTop argv;
          Pdf.right := Argv.marginRight argv;
          Pdf.bottom := if displayFooter
                        then Manifest.footerHeight (Manifest.pdfObject pdf)
                        else Argv.marginBottom argv;
          Pdf.left := Argv.marginLeft argv |};
     Pdf.displayHeaderFooter := displayFooter;
     Pdf.headerTemplate := None;
     Pdf.footerTemplate :=
       unescapeQuotes (Manifest.footerTemplate (Manifest.pdfObject pdf)) |}.

(** The body of [for (const pdf of config)]. *)
Fixpoint bulkLoop (argv : Argv.t) (config : list Manifest.Entry) : M unit :=
  match config with
  | [] => ret tt
  | pdf :: rest =>
      let htmlFile := fileUrl (Manifest.htmlFile pdf) in
      call (Goto htmlFile
              (buildNavigationOptions (Argv.timeout argv) (Argv.waitUntil argv))) ;;
      buffer <- callBuffer (PagePdf (bulkPdfOptions argv pdf)) ;;
      call (Sleep 20) ;;
      bulkLoop argv rest
  end.

Definition bulkPrint (argv : Argv.t) : M unit :=
  config <- readBatchData (Argv.batchFile argv) ;;
  call (Launch (buildLaunchOptions (Argv.sandbox argv))) ;;
  call NewPage ;;
  match config with
  | Some entries => bulkLoop argv entries
  | None => throw notIterable
  end ;;
  call BrowserClose.

(** The object literal of the [page.pdf] call of [print]. *)
Definition printPdfOptions (argv : Argv.t) : Pdf.Options :=
  {| Pdf.path := orNull (Argv.output argv);
     Pdf.format := Argv.format argv;
     Pdf.landscape := Argv.landscape argv;
     Pdf.printBackground := Argv.background argv;
     Pdf.margin :=
       {| Pdf.top := Argv.marginTop argv;
          Pdf.right := Argv.marginRight argv;
          Pdf.bottom := Argv.marginBottom argv;
          Pdf.left := Argv.marginLeft argv |};
     Pdf.displayHeaderFooter := Argv.displayHeaderFooter argv;
     Pdf.headerTemplate := Some (Argv.headerTemplate argv);
     Pdf.footerTemplate := Argv.footerTemplate argv |}.

Definition print (argv : Argv.t) : M unit :=
  call (Launch (buildLaunchOptions (Argv.sandbox argv))) ;;
  call NewPage ;;
  let url := if isUrl (Argv.url argv)
             then toString (parseUrl (Argv.url argv))
             else fileUrl (Argv.url argv) in
  whenTruthy (Argv.cookie argv) (fun cookie =>
    cookies <- eval (buildCookies (Argv.url argv) cookie) ;;
    call (SetCookie cookies)) ;;
  call (Goto url (buildNavigationOptions (Argv.timeout argv) (Argv.waitUntil argv))) ;;
  buffer <- callBuffer (PagePdf (printPdfOptions argv)) ;;
  (if negb (truthy (Argv.output argv)) then call (StdoutWrite buffer) else ret tt) ;;
  call BrowserClose.

Definition screenshot (argv : Argv.t) : M unit :=
  call (Launch (buildLaunchOptions (Argv.sandbox argv))) ;;
  call NewPage ;;
  let url := if isUrl (Argv.url argv)
             then toString (parseUrl (Argv.url argv))
             else fileUrl (Argv.url argv) in
  whenTruthy (Argv.viewport argv) (fun viewport =>
    match matchViewport viewport with
    | None => processExit 1
    | Some (width, height) =>
        call (SetViewport {| width := parseInt width; height := parseInt height |})
    end) ;;
  whenTruthy (Argv.cookie argv) (fun cookie =>
    cookies <- eval (buildCookies (Argv.url argv) cookie) ;;
    call (SetCookie cookies)) ;;
  call (Goto url (buildNavigationOptions (Argv.timeout argv) (Argv.waitUntil argv))) ;;
  buffer <- callBuffer
    (PageScreenshot {| Shot.path := orNull (Argv.output argv);
                       Shot.fullPage := Argv.fullPage argv;
                       Shot.omitBackground := Argv.omitBackground argv |}) ;;
  (if negb (truthy (Argv.output argv)) then call (StdoutWrite buffer) else ret tt) ;;
  call BrowserClose.

(** The [handler] of each yargs command. *)
Definition bulkPrintHandler (argv : Argv.t) : M unit :=
  tryCatch (bulkPrint argv)
    (fun err => consoleLog "Failed to generate pdf:" err ;; processExit 1).

Definition printHandler (argv : Argv.t) : M unit :=
  tryCatch (print argv)
    (fun err => consoleLog "Failed to generate pdf:" err ;; processExit 1).

Definition screenshotHandler (argv : Argv.t) : M unit :=
  tryCatch (screenshot argv)
    (fun err => consoleLog "Failed to take screenshot:" err ;; processExit 1).

End Driver.

(* ================================================================== *)
(** ** What a run leaves behind *)

Definition calls (tr : list Event) : list Call := map ev_call tr.

(** An event whose call did not throw. *)
Definition succeeded (ev : Event) : bool :=
  match ev_reply ev with
  | Threw _ => false
  | _ => true
  end.

(** The option objects handed to [page.pdf], in order. *)
Fixpoint pdfCalls (tr : list Event) : list Pdf.Options :=
  match tr with
  | [] => []
  | Ev (PagePdf o) _ :: rest => o :: pdfCalls rest
  | _ :: rest => pdfCalls rest
  end.

(** The URLs handed to [page.goto], in order. *)
Fixpoint gotoCalls (tr : list Event) : list string :=
  match tr with
  | [] => []
  | Ev (Goto u _) _ :: rest => u :: gotoCalls rest
  | _ :: rest => gotoCalls rest
  end.

(** The buffers handed to [process.stdout.write], in order. *)
Fixpoint stdoutWrites (tr : list Event) : list Buffer :=
  match tr with
  | [] => []
  | Ev (StdoutWrite b) _ :: rest => b :: stdoutWrites rest
  | _ :: rest => stdoutWrites rest
  end.

Definition fileAt (path : option string) (b : Buffer) : list (string * Buffer) :=
  match path with
  | Some p => if truthyString p then [(p, b)] else []
  | None => []
  end.

(** The files the render calls leave on disk: [page.pdf] and
    [page.screenshot] store the buffer they produce at [path] when one is
    given, and touch no file otherwise. *)
Fixpoint filesWritten (tr : list Event) : list (string * Buffer) :=
  match tr with
  | [] => []
  | Ev (PagePdf o) (Produced b) :: rest => fileAt (Pdf.path o) b ++ filesWritten rest
  | Ev (PageScreenshot o) (Produced b) :: rest => fileAt (Shot.path o) b ++ filesWritten rest
  | _ :: rest => filesWritten rest
  end.

Definition isSetCookie (c : Call) : bool :=
  match c with SetCookie _ => true | _ => false end.

(** The entries a batch run iterates over. *)
Definition entriesOf (eng : Engine) (argv : Argv.t) : list Manifest.Entry :=
  match batchData eng (Argv.batchFile argv) with
  | Some entries => entries
  | None => []
  end.

(** The shape the viewport flag is documented to have: decimal digits, an
    [x] or [X], decimal digits. *)
Definition viewportForm (s w h : string) : Prop :=
  exists sep : ascii,
    s = (w ++ String sep h)%string /\
    (sep = "x"%char \/ sep = "X"%char) /\
    w <> EmptyString /\ h <> EmptyString /\
    allDigits w = true /\ allDigits h = true.

(** The close step runs on success and only then: a run that returns ends
    with a completed [browser.close]; a run that ends in any other way has
    not closed the browser; and when a call other than the close itself
    throws, its error propagates and [browser.close] is not called at
    all. *)
Definition ClosesOnSuccessOnly (r : Outcome unit * list Event) : Prop :=
  (fst r = Returned tt ->
     exists pre, snd r = pre ++ [Ev BrowserClose Completed] /\
                 ~ In BrowserClose (calls pre)) /\
  (fst r <> Returned tt -> ~ In (Ev BrowserClose Completed) (snd r)) /\
  (forall c e, In (Ev c (Threw e)) (snd r) -> c <> BrowserClose ->
     fst r = Raised e /\ ~ In BrowserClose (calls (snd r))).

(** Every call a computation makes to engine [eng] satisfies [P]. *)
Definition Only (eng : Engine) (P : Call -> Prop) {A : Type} (m : M A) : Prop :=
  forall h, Forall (fun ev => P (ev_call ev)) (snd (m eng h)).

Definition Succeeded (ev : Event) : Prop := succeeded ev = true.

(** A computation stops at the first call that throws: all its events
    succeeded, except that the last one may be the call whose error
    propagates. *)
Definition Disciplined {A : Type} (m : M A) : Prop :=
  forall eng h,
    match fst (m eng h) with
    | Raised e =>
        Forall Succeeded (snd (m eng h)) \/
        exists pre c, snd (m eng h) = pre ++ [Ev c (Threw e)] /\ Forall Succeeded pre
    | _ => Forall Succeeded (snd (m eng h))
    end.

(** An error that propagates out of operation [op] is logged by its
    handler under [label], and the process exits with status 1. *)
Definition HandlerReports (label : string) (op handler : M unit) (eng : Engine)
  : Prop :=
  forall e, fst (run op eng) = Raised e ->
    run handler eng
    = (Exited 1, snd (run op eng) ++ [Ev (ConsoleLog label e) Completed]).

(** The footer of a batch entry decides the header/footer switch and the
    bottom margin of the options [o] rendered for it. *)
Definition FooterCoupled (argv : Argv.t) (pdf : Manifest.Entry) (o : Pdf.Options)
  : Prop :=
  let footer := Manifest.footerTemplate (Manifest.pdfObject pdf) in
  (footer <> EmptyString ->
     Pdf.displayHeaderFooter o = true /\
     Pdf.bottom (Pdf.margin o) = Manifest.footerHeight (Manifest.pdfObject pdf)) /\
  (footer = EmptyString ->
     Pdf.displayHeaderFooter o = false /\
     Pdf.bottom (Pdf.margin o) = Argv.marginBottom argv).

(** The option objects handed to [page.screenshot], in order. *)
Fixpoint shotCalls (tr : list Event) : list Shot.Options :=
  match tr with
  | [] => []
  | Ev (PageScreenshot o) _ :: rest => o :: shotCalls rest
  | _ :: rest => shotCalls rest
  end.

(** The delays handed to [sleep], in order. *)
Fixpoint sleepCalls (tr : list Event) : list Z :=
  match tr with
  | [] => []
  | Ev (Sleep ms) _ :: rest => ms :: sleepCalls rest
  | _ :: rest => sleepCalls rest
  end.

(** The [page.pdf] calls that produced a document, in order. *)
Fixpoint rendered (tr : list Event) : list Pdf.Options :=
  match tr with
  | [] => []
  | Ev (PagePdf o) (Produced _) :: rest => o :: rendered rest
  | _ :: rest => rendered rest
  end.

(** The events that precede the first [page.goto]. *)
Fixpoint beforeGoto (tr : list Event) : list Event :=
  match tr with
  | [] => []
  | Ev (Goto _ _) _ :: _ => []
  | ev :: rest => ev :: beforeGoto rest
  end.

Definition isLaunch (c : Call) : bool :=
  match c with Launch _ => true | _ => false end.

Definition isNewPage (c : Call) : bool :=
  match c with NewPage => true | _ => false end.

Definition isLog (c : Call) : bool :=
  match c with ConsoleLog _ _ => true | _ => false end.

Definition isSetViewport (c : Call) : bool :=
  match c with SetViewport _ => true | _ => false end.

(** How many calls of a trace satisfy [p]. *)
Definition countCalls (p : Call -> bool) (tr : list Event) : nat :=
  List.length (filter p (calls tr)).

(** A string without its backslashes. *)
Fixpoint dropBackslashes (s : string) : string :=
  match s with
  | EmptyString => EmptyString
  | String a rest =>
      if Ascii.eqb a backslash then dropBackslashes rest
      else String a (dropBackslashes rest)
  end.

(** The runs of the loop of [bulkPrint] over [config], by the step at
    which they stop: every entry is navigated to, rendered and followed by
    the delay, until a call throws or the entries are exhausted. *)
Inductive LoopRun (fileUrl : string -> string) (argv : Argv.t)
  : list Manifest.Entry -> Outcome unit -> list Event -> Prop :=
| LoopDone : LoopRun fileUrl argv [] (Returned tt) []
| LoopGotoThrows (pdf : Manifest.Entry) (rest : list Manifest.Entry) (e : Error) :
    LoopRun fileUrl argv (pdf :: rest) (Raised e)
      [Ev (Goto (fileUrl (Manifest.htmlFile pdf))
             (buildNavigationOptions (Argv.timeout argv) (Argv.waitUntil argv)))
          (Threw e)]
| LoopPdfThrows (pdf : Manifest.Entry) (rest : list Manifest.Entry) (e : Error) :
    LoopRun fileUrl argv (pdf :: rest) (Raised e)
      [Ev (Goto (fileUrl (Manifest.htmlFile pdf))
             (buildNavigationOptions (Argv.timeout argv) (Argv.waitUntil argv)))
          Completed;
       Ev (PagePdf (bulkPdfOptions argv pdf)) (Threw e)]
| LoopSleepThrows (pdf : Manifest.Entry) (rest : list Manifest.Entry)
    (b : Buffer) (e : Error) :
    LoopRun fileUrl argv (pdf :: rest) (Raised e)
      [Ev (Goto (fileUrl (Manifest.htmlFile pdf))
             (buildNavigationOptions (Argv.timeout argv) (Argv.waitUntil argv)))
          Completed;
       Ev (PagePdf (bulkPdfOptions argv pdf)) (Produced b);
       Ev (Sleep 20) (Threw e)]
| LoopNext (pdf : Manifest.Entry) (rest : list Manifest.Entry) (b : Buffer)
    (out : Outcome unit) (t : list Event) :
    LoopRun fileUrl argv rest out t ->
    LoopRun fileUrl argv (pdf :: rest) out
      (Ev (Goto (fileUrl (Manifest.htmlFile pdf))
             (buildNavigationOptions (Argv.timeout argv) (Argv.waitUntil argv)))
          Completed
       :: Ev (PagePdf (bulkPdfOptions argv pdf)) (Produced b)
       :: Ev (Sleep 20) Completed
       :: t).

(** The three calls that set a batch run up. *)
Definition batchSetup (argv : Argv.t) : list Event :=
  [Ev (ReadBatchFile (Argv.batchFile argv)) Completed;
   Ev (Launch (buildLaunchOptions (Argv.sandbox argv))) Completed;
   Ev NewPage Completed].

(** The runs of [bulkPrint], by the step at which they stop. *)
Inductive BulkRun (fileUrl : string -> string) (argv : Argv.t) (eng : Engine)
  : Outcome unit -> list Event -> Prop :=
| BulkReadThrows (e : Error) :
    BulkRun fileUrl argv eng (Raised e)
      [Ev (ReadBatchFile (Argv.batchFile argv)) (Threw e)]
| BulkLaunchThrows (e : Error) :
    BulkRun fileUrl argv eng (Raised e)
      [Ev (ReadBatchFile (Argv.batchFile argv)) Completed;
       Ev (Launch (buildLaunchOptions (Argv.sandbox argv))) (Threw e)]
| BulkNewPageThrows (e : Error) :
    BulkRun fileUrl argv eng (Raised e)
      [Ev (ReadBatchFile (Argv.batchFile argv)) Completed;
       Ev (Launch (buildLaunchOptions (Argv.sandbox argv))) Completed;
       Ev NewPage (Threw e)]
| BulkNotIterable :
    batchData eng (Argv.batchFile argv) = None ->
    BulkRun fileUrl argv eng (Raised notIterable) (batchSetup argv)
| BulkLoopStops (entries : list Manifest.Entry) (e : Error) (t : list Event) :
    batchData eng (Argv.batchFile argv) = Some entries ->
    LoopRun fileUrl argv entries (Raised e) t ->
    BulkRun fileUrl argv eng (Raised e) (batchSetup argv ++ t)
| BulkCloseThrows (entries : list Manifest.Entry) (e : Error) (t : list Event) :
    batchData eng (Argv.batchFile argv) = Some entries ->
    LoopRun fileUrl argv entries (Returned tt) t ->
    BulkRun fileUrl argv eng (Raised e)
      (batchSetup argv ++ t ++ [Ev BrowserClose (Threw e)])
| BulkDone (entries : list Manifest.Entry) (t : list Event) :
    batchData eng (Argv.batchFile argv) = Some entries ->
    LoopRun fileUrl argv entries (Returned tt) t ->
    BulkRun fileUrl argv eng (Returned tt)
      (batchSetup argv ++ t ++ [Ev BrowserClose Completed]).

(** What the sandbox, timeout and wait-until flags of the command line
    require of a call: a launch carries the arguments the sandbox flag
    selects, a navigation carries the timeout and the wait condition. *)
Definition FlagsGovern (argv : Argv.t) (c : Call) : Prop :=
  match c with
  | Launch o =>
      args o = if Argv.sandbox argv then []
               else ["--no-sandbox"; "--disable-setuid-sandbox"]
  | Goto _ o =>
      nav_timeout o = Argv.timeout argv /\ nav_waitUntil o = Argv.waitUntil argv
  | _ => True
  end.

(** A computation that stops the process does so with status 1. *)
Definition ExitsWithOne {A : Type} (m : M A) : Prop :=
  forall eng h code, fst (m eng h) = Exited code -> code = 1.

(* ================================================================== *)
(** ** Concrete worlds and command lines on which runs are evaluated *)

Module Npm.
(** An instance of the npm helpers: [isUrl] accepts http and https URLs,
    [parseUrl] splits an address into protocol, host and the rest and
    lower-cases protocol and host, as [url-parse] does, and [fileUrl]
    puts the file scheme before an absolute path. *)
Record Url : Type := mkUrl { protocol : string; host : string; rest : string }.

Definition lowerChar (c : ascii) : ascii :=
  let n := nat_of_ascii c in
  if ((65 <=? n) && (n <=? 90))%nat then ascii_of_nat (n + 32) else c.

Fixpoint lower (s : string) : string :=
  match s with
  | EmptyString => EmptyString
  | String c r => String (lowerChar c) (lower r)
  end.

(** Everything before the first ['/'], and what follows from it on. *)
Fixpoint splitAtSlash (s : string) : string * string :=
  match s with
  | EmptyString => (EmptyString, EmptyString)
  | String c r =>
      if Ascii.eqb c "/" then (EmptyString, s)
      else let (a, b) := splitAtSlash r in (String c a, b)
  end.

Definition isUrl (s : string) : bool :=
  String.prefix "http://" (lower s) || String.prefix "https://" (lower s).

Definition parseUrl (s : string) : Url :=
  let (proto, afterProto) := splitAtSlash s in
  let (hostPart, restPart) := splitAtSlash (substr afterProto 2 None) in
  mkUrl (lower proto) (lower hostPart) restPart.

Definition toString (u : Url) : string :=
  (protocol u ++ "//" ++ host u ++ rest u)%string.

Definition fileUrl (p : string) : string := ("file://" ++ p)%string.
End Npm.

Module Sample.
Definition bytes : Buffer := [Byte.x25; Byte.x50; Byte.x44; Byte.x46].

Definition timeoutError : Error :=
  mkError "TimeoutError" "Navigation timeout of 30000 ms exceeded".

(** Every call succeeds; the batch file holds [entries]. *)
Definition healthy (entries : option (list Manifest.Entry)) : Engine :=
  {| fails := fun _ _ => None;
     renders := fun _ _ => bytes;
     batchData := fun _ => entries |}.

(** Navigation times out; everything else succeeds. *)
Definition navigationTimesOut : Engine :=
  {| fails := fun _ c => match c with
                         | Goto _ _ => Some timeoutError
                         | _ => None
                         end;
     renders := fun _ _ => bytes;
     batchData := fun _ => Some [] |}.

(** A command line with the default sandbox, timeout, wait condition and
    margins, for the given target, output, footer template, viewport and
    background flag. *)
Definition argv (url : string) (output : option string) (footer : string)
  (viewport : option string) (background : bool) : Argv.t :=
  {| Argv.sandbox := false;
     Argv.timeout := 30 * 1000;
     Argv.waitUntil := "load";
     Argv.cookie := None;
     Argv.url := url;
     Argv.output := output;
     Argv.batchFile := "batch.json";
     Argv.background := background;
     Argv.marginTop := "6.25mm";
     Argv.marginRight := "6.25mm";
     Argv.marginBottom := "14.11mm";
     Argv.marginLeft := "6.25mm";
     Argv.format := "A4";
     Argv.landscape := false;
     Argv.displayHeaderFooter := false;
     Argv.headerTemplate := EmptyString;
     Argv.footerTemplate := footer;
     Argv.fullPage := true;
     Argv.omitBackground := false;
     Argv.viewport := viewport |}.

Definition entry (footer : string) : Manifest.Entry :=
  {| Manifest.htmlFile := "/tmp/a.html";
     Manifest.tmpPDFFile := "/tmp/a.pdf";
     Manifest.pdfObject :=
       {| Manifest.isLandscape := false;
          Manifest.footerTemplate := footer;
          Manifest.footerHeight := "20mm" |} |}.

Definition print := print Npm.isUrl Npm.parseUrl Npm.toString Npm.fileUrl.
Definition screenshot := screenshot Npm.isUrl Npm.parseUrl Npm.toString Npm.fileUrl.
Definition screenshotHandler :=
  screenshotHandler Npm.isUrl Npm.parseUrl Npm.toString Npm.fileUrl.
Definition bulkPrint := bulkPrint Npm.fileUrl.
End Sample.

(** The command line [a] with the cookie flag set to [cookie]. *)
Definition withCookie (cookie : option string) (a : Argv.t) : Argv.t :=
  {| Argv.sandbox := Argv.sandbox a;
     Argv.timeout := Argv.timeout a;
     Argv.waitUntil := Argv.waitUntil a;
     Argv.cookie := cookie;
     Argv.url := Argv.url a;
     Argv.output := Argv.output a;
     Argv.batchFile := Argv.batchFile a;
     Argv.background := Argv.background a;
     Argv.marginTop := Argv.marginTop a;
     Argv.marginRight := Argv.marginRight a;
     Argv.marginBottom := Argv.marginBottom a;
     Argv.marginLeft := Argv.marginLeft a;
     Argv.format := Argv.format a;
     Argv.landscape := Argv.landscape a;
     Argv.displayHeaderFooter := Argv.displayHeaderFooter a;
     Argv.headerTemplate := Argv.headerTemplate a;
     Argv.footerTemplate := Argv.footerTemplate a;
     Argv.fullPage := Argv.fullPage a;
     Argv.omitBackground := Argv.omitBackground a;
     Argv.viewport := Argv.viewport a |}.

(* ================================================================== *)
(** * Properties *)

(* ------------------------------------------------------------------ *)
(** ** Strings *)

Lemma indexOfFrom_absent (c : ascii) (s : string) (i : Z) :
  hasChar c s = false -> indexOfFrom c s i = -1.
Proof.
  revert i; induction s as [|a s IH]; intros i H; simpl in *.
  - reflexivity.
  - apply orb_false_iff in H as [Ha Hs]. rewrite Ha. now apply IH.
Qed.

Lemma indexOfFrom_first (c : ascii) (name value : string) (i : Z) :
  hasChar c name = false ->
  indexOfFrom c (name ++ String c value) i = i + Z.of_nat (String.length name).
Proof.
  revert i; induction name as [|a name IH]; intros i H; simpl in *.
  - rewrite Ascii.eqb_refl. lia.
  - apply orb_false_iff in H as [Ha Hs]. rewrite Ha, IH by assumption. lia.
Qed.

Lemma hasChar_split (c : ascii) (s : string) :
  hasChar c s = true ->
  exists name value, s = (name ++ String c value)%string /\ hasChar c name = false.
Proof.
  induction s as [|a s IH]; simpl; intros H.
  - discriminate.
  - destruct (Ascii.eqb a c) eqn:E.
    + apply Ascii.eqb_eq in E; subst a.
      exists EmptyString, s. split; reflexivity.
    + simpl in H. destruct (IH H) as (name & value & -> & Hn).
      exists (String a name), value. simpl. rewrite E, Hn. split; reflexivity.
Qed.

Lemma substring_prefix (a b : string) :
  String.substring 0 (String.length a) (a ++ b) = a.
Proof.
  induction a as [|x a IH]; simpl.
  - destruct b; reflexivity.
  - now rewrite IH.
Qed.

Lemma substring_whole (s : string) :
  String.substring 0 (String.length s) s = s.
Proof. induction s as [|x s IH]; simpl; [reflexivity | now rewrite IH]. Qed.

Lemma substring_suffix (a b : string) (n : nat) :
  String.substring (String.length a + n) (String.length b - n) (a ++ b)
  = String.substring n (String.length b - n) b.
Proof. induction a as [|x a IH]; simpl; [reflexivity | exact IH]. Qed.

Lemma length_append (a b : string) :
  String.length (a ++ b) = (String.length a + String.length b)%nat.
Proof. induction a as [|x a IH]; simpl; [reflexivity | now rewrite IH]. Qed.

Lemma substr_name (name value : string) (c : ascii) :
  substr (name ++ String c value) 0 (Some (Z.of_nat (String.length name))) = name.
Proof.
  unfold substr. rewrite length_append. simpl String.length.
  replace (0 <? 0) with false by reflexivity.
  rewrite Z.min_l by lia. simpl Z.to_nat.
  rewrite Z.max_l, Z.min_l by lia.
  rewrite Nat2Z.id. apply substring_prefix.
Qed.

Lemma substr_value (name value : string) (c : ascii) :
  substr (name ++ String c value) (Z.of_nat (String.length name) + 1) None = value.
Proof.
  unfold substr. rewrite length_append. simpl String.length.
  destruct (Z.ltb_spec (Z.of_nat (String.length name) + 1) 0) as [E|E]; [lia|].
  rewrite Z.min_l by lia.
  replace (Z.to_nat (Z.of_nat (String.length name) + 1))
    with (String.length name + 1)%nat by lia.
  replace (Z.to_nat (Z.of_nat (String.length name + S (String.length value))
                     - (Z.of_nat (String.length name) + 1)))
    with (String.length (String c value) - 1)%nat by (simpl; lia).
  rewrite substring_suffix. simpl. rewrite Nat.sub_0_r. apply substring_whole.
Qed.

(* ------------------------------------------------------------------ *)
(** ** Option translators *)

Lemma buildCookie_split (url name value : string) :
  hasChar colon name = false ->
  buildCookie url (name ++ String colon value) = Normal (mkCookie name value url).
Proof.
  intros H. unfold buildCookie, indexOf.
  rewrite indexOfFrom_first by assumption. simpl Z.add.
  destruct (Z.eqb_spec (Z.of_nat (String.length name)) (-1)) as [E|E]; [lia|].
  now rewrite substr_name, substr_value.
Qed.

Lemma buildCookies_scope (url s : string) (cs : list Cookie) :
  buildCookies url s = Normal cs -> Forall (fun k => cookie_url k = url) cs.
Proof.
  unfold buildCookies, buildCookie; simpl.
  destruct (indexOf s colon =? -1); [discriminate|].
  intros H; inversion H; subst. repeat constructor.
Qed.

(** C3. A cookie string with a colon is split at its first colon, the
    cookie being scoped to the URL given to [buildCookies]; a cookie
    string without colon makes [buildCookies] throw its error. *)
Theorem buildCookies_first_colon (url s : string) :
  (hasChar colon s = true ->
     exists name value,
       s = (name ++ ":" ++ value)%string /\ hasChar colon name = false /\
       buildCookies url s = Normal [mkCookie name value url]) /\
  (hasChar colon s = false -> buildCookies url s = Throws cookieError).
Proof.
  split; intros H.
  - destruct (hasChar_split _ _ H) as (name & value & -> & Hn).
    exists name, value. repeat split; try assumption.
    unfold buildCookies; simpl. now rewrite buildCookie_split.
  - unfold buildCookies, buildCookie, indexOf; simpl.
    now rewrite indexOfFrom_absent.
Qed.

Lemma buildCookies_first_colon_witness :
  (exists name value,
     "a:b:c" = (name ++ ":" ++ value)%string /\ hasChar colon name = false /\
     buildCookies "https://example.com" "a:b:c"
     = Normal [mkCookie name value "https://example.com"]) /\
  buildCookies "https://example.com" "abc" = Throws cookieError.
Proof.
  split.
  - apply (buildCookies_first_colon "https://example.com" "a:b:c"). reflexivity.
  - apply (buildCookies_first_colon "https://example.com" "abc"). reflexivity.
Defined.

Example buildCookies_abc :
  buildCookies "https://example.com" "a:b:c"
  = Normal [mkCookie "a" "b:c" "https://example.com"].
Proof. reflexivity. Qed.

(** C4. Without sandbox the launch arguments hold both hardening flags;
    with the sandbox they hold neither. *)
Theorem buildLaunchOptions_flags :
  (In "--no-sandbox" (args (buildLaunchOptions false)) /\
   In "--disable-setuid-sandbox" (args (buildLaunchOptions false))) /\
  (~ In "--no-sandbox" (args (buildLaunchOptions true)) /\
   ~ In "--disable-setuid-sandbox" (args (buildLaunchOptions true))).
Proof.
  split; split; simpl; auto; intros [].
Qed.

(* ------------------------------------------------------------------ *)
(** ** The viewport pattern *)

Lemma spanDigits_spec (s : string) :
  s = (fst (spanDigits s) ++ snd (spanDigits s))%string /\
  allDigits (fst (spanDigits s)) = true /\
  match snd (spanDigits s) with
  | String c _ => isDigit c = false
  | EmptyString => True
  end.
Proof.
  induction s as [|c s IH]; simpl.
  - auto.
  - destruct (isDigit c) eqn:E.
    + destruct (spanDigits s) as [ds tl]; simpl in *.
      destruct IH as (-> & Hd & Hn). rewrite E, Hd. auto.
    + simpl. rewrite E. auto.
Qed.

Lemma spanDigits_stops (w : string) (sep : ascii) (h : string) :
  allDigits w = true -> isDigit sep = false ->
  spanDigits (w ++ String sep h) = (w, String sep h).
Proof.
  intros Hw Hs. induction w as [|c w IH]; simpl in *.
  - now rewrite Hs.
  - apply andb_true_iff in Hw as [Hc Hw]. rewrite Hc, IH by assumption. reflexivity.
Qed.

Lemma spanDigits_all (w : string) :
  allDigits w = true -> spanDigits w = (w, EmptyString).
Proof.
  induction w as [|c w IH]; simpl; intros Hw; [reflexivity|].
  apply andb_true_iff in Hw as [Hc Hw]. now rewrite Hc, IH.
Qed.

Lemma eqb_empty (h : string) : h <> EmptyString -> String.eqb h EmptyString = false.
Proof. destruct h; [congruence | reflexivity]. Qed.

Lemma matchViewport_form (s w h : string) :
  matchViewport s = Some (w, h) <-> viewportForm s w h.
Proof.
  unfold matchViewport, viewportForm. split.
  - pose proof (spanDigits_spec s) as (Hs & Hd & _).
    destruct (spanDigits s) as [a b]; simpl in *.
    destruct a as [|c a]; [discriminate|].
    destruct b as [|sep hh]; [discriminate|].
    destruct ((Ascii.eqb sep "x" || Ascii.eqb sep "X") && allDigits hh
              && negb (String.eqb hh EmptyString)) eqn:E; [|discriminate].
    intros Heq; inversion Heq; subst w h; clear Heq.
    apply andb_true_iff in E as [E Hne]. apply andb_true_iff in E as [Hsep Hh].
    exists sep. repeat split; auto.
    + apply orb_true_iff in Hsep as [H|H]; apply Ascii.eqb_eq in H; auto.
    + discriminate.
    + intros ->. discriminate.
  - intros (sep & -> & Hsep & Hw & Hh & Hdw & Hdh).
    assert (Hnd : isDigit sep = false) by (destruct Hsep; subst; reflexivity).
    rewrite spanDigits_stops by assumption.
    destruct w as [|c w]; [congruence|].
    rewrite Hdh, eqb_empty by assumption.
    destruct Hsep; subst; reflexivity.
Qed.

Lemma matchViewport_malformed (s : string) :
  (forall w h, ~ viewportForm s w h) -> matchViewport s = None.
Proof.
  intros H. destruct (matchViewport s) as [[w h]|] eqn:E; [|reflexivity].
  apply matchViewport_form in E. now apply H in E.
Qed.

Lemma truthyString_nonempty (s : string) :
  s <> EmptyString -> truthyString s = true.
Proof. destruct s; [congruence | reflexivity]. Qed.

Lemma parseInt_digits (w : string) :
  w <> EmptyString -> allDigits w = true -> decimalValue 0 w < 2 ^ 53 ->
  parseInt w = Finite (decimalValue 0 w).
Proof.
  intros Hne Hd Hlt. unfold parseInt. rewrite spanDigits_all by assumption.
  destruct w; [congruence|]. unfold toDouble.
  apply Z.ltb_lt in Hlt. now rewrite Hlt.
Qed.

(* ------------------------------------------------------------------ *)
(** ** Reasoning about the calls of a computation *)

Create HintDb trace.

Section OnlyCalls.

Variable eng : Engine.
Variable P : Call -> Prop.

Lemma Only_ret {A : Type} (a : A) : Only eng P (ret a).
Proof. intros h; constructor. Qed.

Lemma Only_throw {A : Type} (e : Error) : Only eng P (@throw A e).
Proof. intros h; constructor. Qed.

Lemma Only_processExit {A : Type} (code : Z) : Only eng P (@processExit A code).
Proof. intros h; constructor. Qed.

Lemma Only_eval {A : Type} (c : Completion A) : Only eng P (eval c).
Proof. destruct c; intros h; constructor. Qed.

Lemma Only_call (c : Call) : P c -> Only eng P (call c).
Proof.
  intros Hc h. unfold call. destruct (fails eng h c); simpl; auto.
Qed.

Lemma Only_callBuffer (c : Call) : P c -> Only eng P (callBuffer c).
Proof.
  intros Hc h. unfold callBuffer. destruct (fails eng h c); simpl; auto.
Qed.

Lemma Only_readBatchData (path : string) :
  P (ReadBatchFile path) -> Only eng P (readBatchData path).
Proof.
  intros Hc h. unfold readBatchData.
  destruct (fails eng h (ReadBatchFile path)); simpl; auto.
Qed.

Lemma Only_consoleLog (label : string) (err : Error) :
  P (ConsoleLog label err) -> Only eng P (consoleLog label err).
Proof. intros Hc h. simpl. auto. Qed.

(** The continuation only matters at the values the first part returns. *)
Lemma Only_bind_returned {A B : Type} (m : M A) (k : A -> M B) :
  Only eng P m ->
  (forall a h, fst (m eng h) = Returned a -> Only eng P (k a)) ->
  Only eng P (bind m k).
Proof.
  intros Hm Hk h. unfold bind.
  specialize (Hm h). specialize (fun a => Hk a h).
  destruct (m eng h) as [[a|e|c] t1]; simpl in *; auto.
  specialize (Hk a eq_refl (h ++ t1)).
  destruct (k a eng (h ++ t1)) as [o t2]; simpl in *.
  apply Forall_app; auto.
Qed.

Lemma Only_bind {A B : Type} (m : M A) (k : A -> M B) :
  Only eng P m -> (forall a, Only eng P (k a)) -> Only eng P (bind m k).
Proof. intros Hm Hk. apply Only_bind_returned; auto. Qed.

Lemma Only_tryCatch {A : Type} (m : M A) (handler : Error -> M A) :
  Only eng P m -> (forall e, Only eng P (handler e)) ->
  Only eng P (tryCatch m handler).
Proof.
  intros Hm Hk h. unfold tryCatch. specialize (Hm h).
  destruct (m eng h) as [[a|e|c] t1]; simpl in *; auto.
  specialize (Hk e (h ++ t1)).
  destruct (handler e eng (h ++ t1)) as [o t2]; simpl in *.
  apply Forall_app; auto.
Qed.

Lemma Only_whenTruthy (s : option string) (k : string -> M unit) :
  (forall v, Only eng P (k v)) -> Only eng P (whenTruthy s k).
Proof.
  intros Hk. unfold whenTruthy.
  destruct s as [v|]; [destruct (truthyString v)|]; auto; apply Only_ret.
Qed.

End OnlyCalls.

#[export] Hint Resolve Only_ret Only_throw Only_processExit Only_eval Only_call
  Only_callBuffer Only_readBatchData Only_consoleLog Only_bind Only_tryCatch
  Only_whenTruthy : trace.

Lemma Disciplined_ret {A : Type} (a : A) : Disciplined (ret a).
Proof. intros eng h; simpl; constructor. Qed.

Lemma Disciplined_throw {A : Type} (e : Error) : Disciplined (@throw A e).
Proof. intros eng h; simpl; left; constructor. Qed.

Lemma Disciplined_processExit {A : Type} (code : Z) :
  Disciplined (@processExit A code).
Proof. intros eng h; simpl; constructor. Qed.

Lemma Disciplined_eval {A : Type} (c : Completion A) : Disciplined (eval c).
Proof. destruct c; [apply Disciplined_ret | apply Disciplined_throw]. Qed.

Lemma Disciplined_call (c : Call) : Disciplined (call c).
Proof.
  intros eng h. unfold call. destruct (fails eng h c) as [e|]; simpl.
  - right. exists [], c. split; [reflexivity | constructor].
  - repeat constructor.
Qed.

Lemma Disciplined_callBuffer (c : Call) : Disciplined (callBuffer c).
Proof.
  intros eng h. unfold callBuffer. destruct (fails eng h c) as [e|]; simpl.
  - right. exists [], c. split; [reflexivity | constructor].
  - repeat constructor.
Qed.

Lemma Disciplined_readBatchData (path : string) : Disciplined (readBatchData path).
Proof.
  intros eng h. unfold readBatchData.
  destruct (fails eng h (ReadBatchFile path)) as [e|]; simpl.
  - right. exists [], (ReadBatchFile path). split; [reflexivity | constructor].
  - repeat constructor.
Qed.

Lemma Disciplined_bind {A B : Type} (m : M A) (k : A -> M B) :
  Disciplined m -> (forall a, Disciplined (k a)) -> Disciplined (bind m k).
Proof.
  intros Hm Hk eng h. unfold bind. specialize (Hm eng h).
  destruct (m eng h) as [[a|e|c] t1]; simpl in *; auto.
  specialize (Hk a eng (h ++ t1)).
  destruct (k a eng (h ++ t1)) as [[b|e|c] t2]; simpl in *.
  - apply Forall_app; auto.
  - destruct Hk as [Hk | (pre & c & -> & Hpre)].
    + left. apply Forall_app; auto.
    + right. exists (t1 ++ pre), c. rewrite app_assoc. split; auto.
      apply Forall_app; auto.
  - apply Forall_app; auto.
Qed.

Lemma Disciplined_whenTruthy (s : option string) (k : string -> M unit) :
  (forall v, Disciplined (k v)) -> Disciplined (whenTruthy s k).
Proof.
  intros Hk. unfold whenTruthy.
  destruct s as [v|]; [destruct (truthyString v)|]; auto; apply Disciplined_ret.
Qed.

#[export] Hint Resolve Disciplined_ret Disciplined_throw Disciplined_processExit
  Disciplined_eval Disciplined_call Disciplined_callBuffer
  Disciplined_readBatchData Disciplined_bind Disciplined_whenTruthy : trace.

(** A thrown event of a disciplined computation is its last one, and its
    error is the one that propagates. *)
Lemma Disciplined_threw {A : Type} (m : M A) (eng : Engine) (h : list Event)
  (c : Call) (e : Error) :
  Disciplined m -> In (Ev c (Threw e)) (snd (m eng h)) -> fst (m eng h) = Raised e.
Proof.
  intros Hm Hin. specialize (Hm eng h).
  assert (Hno : forall t, Forall Succeeded t -> ~ In (Ev c (Threw e)) t).
  { intros t Ht Hc. rewrite Forall_forall in Ht. specialize (Ht _ Hc). discriminate. }
  destruct (fst (m eng h)) as [a|e'|code]; try (exfalso; eapply Hno; eassumption).
  destruct Hm as [Hm | (pre & c' & Heq & Hpre)].
  - exfalso; eapply Hno; eassumption.
  - rewrite Heq in Hin. apply in_app_or in Hin as [Hin | [Hin | []]].
    + exfalso; eapply Hno; eassumption.
    + now inversion Hin.
Qed.

Lemma Only_not_in (eng : Engine) {A : Type} (m : M A) (c : Call) (h : list Event) :
  Only eng (fun c' => c' <> c) m -> ~ In c (calls (snd (m eng h))).
Proof.
  intros Hm Hin. specialize (Hm h). rewrite Forall_forall in Hm.
  unfold calls in Hin. apply in_map_iff in Hin as (ev & Hev & Hin).
  exact (Hm ev Hin Hev).
Qed.

Lemma not_called_not_in (c : Call) (r : Reply) (tr : list Event) :
  ~ In c (calls tr) -> ~ In (Ev c r) tr.
Proof.
  intros Hn Hin. apply Hn. unfold calls.
  change c with (ev_call (Ev c r)). now apply in_map.
Qed.

(** The close call alone. *)
Lemma closes_close (eng : Engine) (h : list Event) :
  ClosesOnSuccessOnly (call BrowserClose eng h).
Proof.
  unfold ClosesOnSuccessOnly, call.
  destruct (fails eng h BrowserClose) as [e|]; simpl.
  - split; [discriminate|]. split.
    + intros _ [Heq | []]. discriminate.
    + intros c e' [Heq | []] Hc. inversion Heq; subst. congruence.
  - split; [|split].
    + intros _. exists []. split; [reflexivity | intros []].
    + congruence.
    + intros c e' [Heq | []] Hc. inversion Heq.
Qed.

(** Steps that never close, followed by steps that close on success only. *)
Lemma closes_bind {A : Type} (m : M A) (k : A -> M unit) (eng : Engine)
  (h : list Event) :
  Disciplined m ->
  Only eng (fun c => c <> BrowserClose) m ->
  (forall a h', ClosesOnSuccessOnly (k a eng h')) ->
  ClosesOnSuccessOnly (bind m k eng h).
Proof.
  intros Hd Ho Hk.
  pose proof (Only_not_in (m := m) h Ho) as Hnc.
  pose proof (fun c e => @Disciplined_threw _ m eng h c e Hd) as Hthrew.
  unfold ClosesOnSuccessOnly, bind.
  destruct (m eng h) as [[a|e|code] t1]; simpl in *.
  - specialize (Hk a (h ++ t1)). unfold ClosesOnSuccessOnly in Hk.
    destruct (k a eng (h ++ t1)) as [o t2]; simpl in *.
    destruct Hk as (Hret & Hopen & Hthr). split; [|split].
    + intros Ho'. destruct (Hret Ho') as (pre & -> & Hpre).
      exists (t1 ++ pre). rewrite app_assoc. split; [reflexivity|].
      unfold calls in *. rewrite map_app, in_app_iff. tauto.
    + intros Ho' Hin. apply in_app_or in Hin as [Hin | Hin].
      * revert Hin. now apply not_called_not_in.
      * now apply (Hopen Ho').
    + intros c e Hin Hc. apply in_app_or in Hin as [Hin | Hin].
      * specialize (Hthrew c e Hin). discriminate.
      * destruct (Hthr c e Hin Hc) as [-> Hn]. split; [reflexivity|].
        unfold calls in *. rewrite map_app, in_app_iff. tauto.
  - split; [discriminate|]. split.
    + intros _. now apply not_called_not_in.
    + intros c e' Hin Hc.
      pose proof (Hthrew c e' Hin) as Heq. inversion Heq; subst. auto.
  - split; [discriminate|]. split.
    + intros _. now apply not_called_not_in.
    + intros c e' Hin Hc. specialize (Hthrew c e' Hin). discriminate.
Qed.

Lemma eval_returned {A : Type} (c : Completion A) (eng : Engine)
  (h : list Event) (a : A) :
  fst (eval c eng h) = Returned a -> c = Normal a.
Proof. destruct c; simpl; [now inversion 1 | discriminate]. Qed.

(** Walks through the binds of a handler, leaving what it cannot settle. *)
Ltac walk :=
  repeat (cbv beta zeta;
          match goal with
          | |- forall _, _ => intro
          | |- Disciplined (bind _ _) => apply Disciplined_bind
          | |- Disciplined (whenTruthy _ _) => apply Disciplined_whenTruthy
          | |- Disciplined (match ?x with _ => _ end) => destruct x
          | |- Disciplined _ => solve [auto with trace]
          | |- Only _ _ (bind (eval _) _) =>
              apply Only_bind_returned;
              [apply Only_eval
              | let Hret := fresh "Hret" in
                intros ? ? Hret; apply eval_returned in Hret]
          | |- Only _ _ (bind _ _) => apply Only_bind
          | |- Only _ _ (tryCatch _ _) => apply Only_tryCatch
          | |- Only _ _ (whenTruthy _ _) => apply Only_whenTruthy
          | |- Only _ _ (match ?x with _ => _ end) => destruct x
          | |- Only _ _ (call _) => apply Only_call
          | |- Only _ _ (callBuffer _) => apply Only_callBuffer
          | |- Only _ _ (readBatchData _) => apply Only_readBatchData
          | |- Only _ _ (consoleLog _ _) => apply Only_consoleLog
          | |- Only _ _ _ => solve [auto with trace]
          | |- ClosesOnSuccessOnly (bind _ _ _ _) => apply closes_bind
          | |- ClosesOnSuccessOnly (call BrowserClose _ _) => apply closes_close
          end).

(* ------------------------------------------------------------------ *)
(** ** The operations *)

Section DriverProperties.

Variable Url : Type.
Variable isUrl : string -> bool.
Variable parseUrl : string -> Url.
Variable toString : Url -> string.
Variable fileUrl : string -> string.

Local Abbreviation print := (print isUrl parseUrl toString fileUrl).
Local Abbreviation screenshot := (screenshot isUrl parseUrl toString fileUrl).
Local Abbreviation screenshotHandler :=
  (screenshotHandler isUrl parseUrl toString fileUrl).
Local Abbreviation printHandler := (printHandler isUrl parseUrl toString fileUrl).
Local Abbreviation bulkPrint := (bulkPrint fileUrl).
Local Abbreviation bulkPrintHandler := (bulkPrintHandler fileUrl).
Local Abbreviation bulkLoop := (bulkLoop fileUrl).

Lemma Disciplined_bulkLoop (argv : Argv.t) (config : list Manifest.Entry) :
  Disciplined (bulkLoop argv config).
Proof.
  induction config as [|pdf rest IH]; simpl; walk.
Qed.

(** A property of the calls of one iteration holds of the whole loop. *)
Lemma Only_bulkLoop (eng : Engine) (P : Call -> Prop) (argv : Argv.t)
  (config : list Manifest.Entry) :
  (forall pdf, In pdf config ->
     P (Goto (fileUrl (Manifest.htmlFile pdf))
          (buildNavigationOptions (Argv.timeout argv) (Argv.waitUntil argv))) /\
     P (PagePdf (bulkPdfOptions argv pdf)) /\
     P (Sleep 20)) ->
  Only eng P (bulkLoop argv config).
Proof.
  induction config as [|pdf rest IH]; intros HP; simpl.
  - apply Only_ret.
  - destruct (HP pdf (or_introl eq_refl)) as (Hg & Hp & Hs).
    walk; auto. apply IH. intros pdf' Hin. apply HP. now right.
Qed.

Lemma closes_print (eng : Engine) (argv : Argv.t) :
  ClosesOnSuccessOnly (run (print argv) eng).
Proof.
  unfold run; unfold print. walk; discriminate.
Qed.

Lemma closes_screenshot (eng : Engine) (argv : Argv.t) :
  ClosesOnSuccessOnly (run (screenshot argv) eng).
Proof.
  unfold run; unfold screenshot. walk; discriminate.
Qed.

Lemma closes_bulkPrint (eng : Engine) (argv : Argv.t) :
  ClosesOnSuccessOnly (run (bulkPrint argv) eng).
Proof.
  unfold run; unfold bulkPrint. walk; try discriminate.
  - apply Disciplined_bulkLoop.
  - apply Only_bulkLoop. intros pdf _. repeat split; discriminate.
Qed.

Lemma tryCatch_reports (label : string) (op : M unit) (eng : Engine) :
  HandlerReports label op
    (tryCatch op (fun err => consoleLog label err ;; processExit 1)) eng.
Proof.
  intros e He. unfold run, tryCatch in *.
  destruct (op eng []) as [o t]; simpl in *; subst o. reflexivity.
Qed.

(** C2 (as amended). In [print], [screenshot] and [bulkPrint] the browser
    is closed exactly when every earlier step succeeded: a run that
    returns ends with the completed close call, and when navigation,
    rendering, writing or any other call but the close itself throws, the
    error propagates without [browser.close] being called; the handler
    then logs the error and exits with status 1. *)
Theorem close_runs_on_success_only (eng : Engine) (argv : Argv.t) :
  (ClosesOnSuccessOnly (run (print argv) eng) /\
   ClosesOnSuccessOnly (run (screenshot argv) eng) /\
   ClosesOnSuccessOnly (run (bulkPrint argv) eng)) /\
  (HandlerReports "Failed to generate pdf:" (print argv) (printHandler argv) eng /\
   HandlerReports "Failed to take screenshot:" (screenshot argv)
     (screenshotHandler argv) eng /\
   HandlerReports "Failed to generate pdf:" (bulkPrint argv)
     (bulkPrintHandler argv) eng).
Proof.
  split; split; [| split | | split];
    auto using closes_print, closes_screenshot, closes_bulkPrint;
    apply tryCatch_reports.
Qed.

(* ------------------------------------------------------------------ *)
(** ** What the batch loop hands to the engine *)

Lemma pdfCalls_Forall (P : Call -> Prop) (tr : list Event) :
  Forall (fun ev => P (ev_call ev)) tr ->
  Forall (fun o => P (PagePdf o)) (pdfCalls tr).
Proof.
  induction 1 as [|[c r] tr Hc _ IH]; simpl; [constructor|].
  destruct c; auto.
Qed.

Lemma gotoCalls_Forall (P : Call -> Prop) (tr : list Event) :
  Forall (fun ev => P (ev_call ev)) tr ->
  Forall (fun u => exists o, P (Goto u o)) (gotoCalls tr).
Proof.
  induction 1 as [|[c r] tr Hc _ IH]; simpl; [constructor|].
  destruct c; eauto.
Qed.

Lemma readBatchData_returned (eng : Engine) (path : string) (h : list Event)
  (config : option (list Manifest.Entry)) :
  fst (readBatchData path eng h) = Returned config -> config = batchData eng path.
Proof.
  unfold readBatchData. destruct (fails eng h (ReadBatchFile path)); simpl.
  - discriminate.
  - now inversion 1.
Qed.

(** Every [page.pdf] call of a batch run renders an entry of the manifest
    with the options [bulkPdfOptions] builds for it. *)
Lemma bulkPrint_pdf_calls (eng : Engine) (argv : Argv.t) :
  Forall (fun o => exists pdf,
            In pdf (entriesOf eng argv) /\ o = bulkPdfOptions argv pdf)
         (pdfCalls (snd (run (bulkPrint argv) eng))).
Proof.
  assert (H : Only eng
            (fun c => forall o, c = PagePdf o ->
               exists pdf, In pdf (entriesOf eng argv) /\ o = bulkPdfOptions argv pdf)
            (bulkPrint argv)).
  { unfold bulkPrint. apply Only_bind_returned.
    - apply Only_readBatchData. discriminate.
    - intros config h Hret. apply readBatchData_returned in Hret.
      walk; try congruence.
      apply Only_bulkLoop. intros pdf Hin. repeat split; try discriminate.
      intros o' Ho. inversion Ho; subst. exists pdf. split; [|reflexivity].
      unfold entriesOf. rewrite <- Hret. exact Hin. }
  specialize (H []). apply pdfCalls_Forall in H.
  eapply Forall_impl; [|exact H]. simpl. intros o Ho. now apply Ho.
Qed.

Lemma bulkPdfOptions_coupled (argv : Argv.t) (pdf : Manifest.Entry) :
  FooterCoupled argv pdf (bulkPdfOptions argv pdf).
Proof.
  unfold FooterCoupled, bulkPdfOptions; simpl.
  destruct (Manifest.footerTemplate (Manifest.pdfObject pdf)); simpl; split;
    intros H; try congruence; auto.
Qed.

Lemma print_pdf_calls (eng : Engine) (argv : Argv.t) :
  Forall (fun o => o = printPdfOptions argv)
         (pdfCalls (snd (run (print argv) eng))).
Proof.
  assert (H : Only eng (fun c => forall o, c = PagePdf o -> o = printPdfOptions argv)
                (print argv)).
  { unfold print. walk; congruence. }
  specialize (H []). apply pdfCalls_Forall in H.
  eapply Forall_impl; [|exact H]. simpl. intros o Ho. now apply Ho.
Qed.

(** C1 (as amended). For each batch entry the options handed to the
    engine couple the footer with the header/footer switch and the bottom
    margin: a non-empty footer template forces [displayHeaderFooter] and
    puts the footer height in the bottom margin, an empty one clears the
    switch and keeps the bottom margin of the command line.  The [print]
    operation has no such coupling: it hands over the header/footer flag,
    the bottom margin and the footer template of the command line as they
    are. *)
Theorem footer_coupling_in_batch_only (eng : Engine) (argv : Argv.t) :
  (forall o, In o (pdfCalls (snd (run (bulkPrint argv) eng))) ->
     exists pdf, In pdf (entriesOf eng argv) /\
                 Pdf.path o = Some (Manifest.tmpPDFFile pdf) /\
                 FooterCoupled argv pdf o) /\
  (forall o, In o (pdfCalls (snd (run (print argv) eng))) ->
     Pdf.displayHeaderFooter o = Argv.displayHeaderFooter argv /\
     Pdf.bottom (Pdf.margin o) = Argv.marginBottom argv /\
     Pdf.footerTemplate o = Argv.footerTemplate argv).
Proof.
  split; intros o Hin.
  - pose proof (bulkPrint_pdf_calls eng argv) as H.
    rewrite Forall_forall in H. destruct (H o Hin) as (pdf & Hpdf & ->).
    exists pdf. split; [exact Hpdf|]. split; [reflexivity|].
    apply bulkPdfOptions_coupled.
  - pose proof (print_pdf_calls eng argv) as H.
    rewrite Forall_forall in H. rewrite (H o Hin). repeat split.
Qed.

(** The batch loop renders every entry with [printBackground] set,
    whatever the command line says. *)
Lemma bulkPrint_printBackground (eng : Engine) (argv : Argv.t) :
  Forall (fun o => Pdf.printBackground o = true)
         (pdfCalls (snd (run (bulkPrint argv) eng))).
Proof.
  eapply Forall_impl; [|apply bulkPrint_pdf_calls].
  simpl. intros o (pdf & _ & ->). reflexivity.
Qed.

(** C9. The bulk-print command declares the cookie flag, yet no run of its
    handler ever calls [page.setCookie], whatever the cookie of the
    command line. *)
Theorem bulkPrint_never_sets_cookie (eng : Engine) (argv : Argv.t) :
  flagOf "cookie" bulkPrintBuilder = Some (mkFlag StringFlag NoDefault) /\
  Forall (fun ev => isSetCookie (ev_call ev) = false)
         (snd (run (bulkPrintHandler argv) eng)).
Proof.
  split; [reflexivity|].
  assert (H : Only eng (fun c => isSetCookie c = false) (bulkPrintHandler argv)).
  { unfold bulkPrintHandler, bulkPrint. walk; try reflexivity.
    apply Only_bulkLoop. intros pdf _. repeat split. }
  exact (H []).
Qed.

(* ------------------------------------------------------------------ *)
(** ** Single-document runs, step by step *)

Arguments buildCookies : simpl never.
Arguments buildLaunchOptions : simpl never.
Arguments buildNavigationOptions : simpl never.
Arguments printPdfOptions : simpl never.
Arguments matchViewport : simpl never.
Arguments parseInt : simpl never.
Arguments truthyString : simpl never.
Arguments truthy : simpl never.
Arguments orNull : simpl never.

(** Case analysis on the answers of the engine, in the order of the calls. *)
Ltac answers :=
  repeat (simpl in *;
          match goal with
          | |- context [fails ?e ?h ?c] => destruct (fails e h c) eqn:?
          | |- context [match buildCookies ?u ?c with _ => _ end] =>
              destruct (buildCookies u c) eqn:?
          | |- context [if truthyString ?v then _ else _] =>
              destruct (truthyString v) eqn:?
          | |- context [match Argv.cookie ?a with _ => _ end] =>
              destruct (Argv.cookie a) eqn:?
          | |- context [truthy ?x] => destruct (truthy x) eqn:?
          end).

(** Finds the event of a concrete trace that hypothesis [Hin] speaks of. *)
Ltac pick Hin :=
  simpl in Hin;
  repeat (destruct Hin as [Hin | Hin];
          [try discriminate Hin; try (inversion Hin; subst; reflexivity) |]);
  try contradiction.

Ltac unfold_run :=
  unfold run, screenshotHandler, printHandler, tryCatch, screenshot, print,
    bind, call, callBuffer, whenTruthy, eval, ret, throw, processExit, consoleLog.

(** C10 (as amended). With a viewport string that is not empty and
    malformed, [screenshot] never calls [browser.close]; when it stops through
    [process.exit], the status is 1 and the browser and its page had been
    launched before; and that is how the run ends whenever the page could
    be opened. *)
Theorem fast_fail_leaves_browser_open (eng : Engine) (argv : Argv.t) (v : string) :
  Argv.viewport argv = Some v ->
  v <> EmptyString ->
  (forall w h, ~ viewportForm v w h) ->
  ~ In BrowserClose (calls (snd (run (screenshot argv) eng))) /\
  (forall code, fst (run (screenshot argv) eng) = Exited code ->
     code = 1 /\
     snd (run (screenshot argv) eng)
     = [Ev (Launch (buildLaunchOptions (Argv.sandbox argv))) Completed;
        Ev NewPage Completed]) /\
  (In (Ev NewPage Completed) (snd (run (screenshot argv) eng)) ->
     fst (run (screenshot argv) eng) = Exited 1).
Proof.
  intros Hv Hne Hbad. apply matchViewport_malformed in Hbad.
  apply truthyString_nonempty in Hne.
  unfold_run. rewrite Hv, Hne, Hbad. answers.
  all: repeat split; try intros code; intros; simpl in *; intuition congruence.
Qed.

(** C5 (as amended). Once the browser page is open, a viewport string made
    of decimal digits, an [x] or [X] and decimal digits is parsed and
    handed to [page.setViewport] as the third call, before any navigation,
    with the width and height [parseInt] reads (the decimal values, when
    they are below [2^53]); a non-empty string of any other shape stops
    the process with status 1 right there, nothing being logged.  The
    empty string is not covered: the handler treats it as no viewport. *)
Theorem viewport_parsed_or_fast_fail (eng : Engine) (argv : Argv.t) (v : string) :
  Argv.viewport argv = Some v ->
  In (Ev NewPage Completed) (snd (run (screenshotHandler argv) eng)) ->
  (forall w h, viewportForm v w h ->
     (exists reply rest,
        snd (run (screenshotHandler argv) eng)
        = [Ev (Launch (buildLaunchOptions (Argv.sandbox argv))) Completed;
           Ev NewPage Completed;
           Ev (SetViewport {| width := parseInt w; height := parseInt h |}) reply]
          ++ rest) /\
     (decimalValue 0 w < 2 ^ 53 -> parseInt w = Finite (decimalValue 0 w)) /\
     (decimalValue 0 h < 2 ^ 53 -> parseInt h = Finite (decimalValue 0 h))) /\
  (v <> EmptyString -> (forall w h, ~ viewportForm v w h) ->
     run (screenshotHandler argv) eng
     = (Exited 1,
        [Ev (Launch (buildLaunchOptions (Argv.sandbox argv))) Completed;
         Ev NewPage Completed])).
Proof.
  intros Hv Hpage. split.
  - intros w h Hform. split.
    + pose proof Hform as Hm. apply matchViewport_form in Hm.
      assert (Hne : truthyString v = true).
      { apply truthyString_nonempty. destruct Hform as (sep & -> & _ & Hw & _).
        destruct w; [congruence | discriminate]. }
      revert Hpage. unfold_run. rewrite Hv, Hne, Hm.
      destruct (fails eng [] (Launch (buildLaunchOptions (Argv.sandbox argv))))
        eqn:E1; simpl.
      { intros [H|[H|[]]]; discriminate. }
      destruct (fails eng
                  [Ev (Launch (buildLaunchOptions (Argv.sandbox argv))) Completed]
                  NewPage) eqn:E2; simpl.
      { intros [H|[H|[H|[]]]]; discriminate. }
      intros _.
      answers; eexists; eexists; reflexivity.
    + destruct Hform as (sep & _ & _ & Hw & Hh & Hdw & Hdh).
      split; intros; now apply parseInt_digits.
  - intros Hne Hbad. apply matchViewport_malformed in Hbad.
    apply truthyString_nonempty in Hne.
    revert Hpage. unfold_run. rewrite Hv, Hne, Hbad. answers.
    all: simpl; intuition congruence.
Qed.

(** Every cookie [print] and [screenshot] inject is scoped to the target
    argument of the command line, as it was typed. *)
Lemma cookies_scoped_to_target (eng : Engine) (argv : Argv.t) :
  Forall (fun ev => forall cs, ev_call ev = SetCookie cs ->
            Forall (fun k => cookie_url k = Argv.url argv) cs)
         (snd (run (print argv) eng)) /\
  Forall (fun ev => forall cs, ev_call ev = SetCookie cs ->
            Forall (fun k => cookie_url k = Argv.url argv) cs)
         (snd (run (screenshot argv) eng)).
Proof.
  split.
  - assert (H : Only eng (fun c => forall cs, c = SetCookie cs ->
                    Forall (fun k => cookie_url k = Argv.url argv) cs)
                  (print argv)).
    { unfold print. walk; try discriminate.
      match goal with
      | Heq : SetCookie _ = SetCookie _ |- _ => inversion Heq; subst
      end.
      eapply buildCookies_scope; eassumption. }
    exact (H []).
  - assert (H : Only eng (fun c => forall cs, c = SetCookie cs ->
                    Forall (fun k => cookie_url k = Argv.url argv) cs)
                  (screenshot argv)).
    { unfold screenshot. walk; try discriminate.
      match goal with
      | Heq : SetCookie _ = SetCookie _ |- _ => inversion Heq; subst
      end.
      eapply buildCookies_scope; eassumption. }
    exact (H []).
Qed.

(** C8. A [print] run without output argument creates no file, and the
    bytes the render produced are handed as they are to the one write on
    standard output; with an output path nothing is written to standard
    output, and the rendered bytes are stored at that path. *)
Theorem print_output_sink (eng : Engine) (argv : Argv.t) :
  (Argv.output argv = None ->
     filesWritten (snd (run (print argv) eng)) = [] /\
     forall o b, In (Ev (PagePdf o) (Produced b)) (snd (run (print argv) eng)) ->
                 stdoutWrites (snd (run (print argv) eng)) = [b]) /\
  (forall p, Argv.output argv = Some p -> p <> EmptyString ->
     stdoutWrites (snd (run (print argv) eng)) = [] /\
     forall o b, In (Ev (PagePdf o) (Produced b)) (snd (run (print argv) eng)) ->
                 filesWritten (snd (run (print argv) eng)) = [(p, b)]).
Proof.
  split.
  - intros Hout.
    assert (Ht : truthy (Argv.output argv) = false) by (now rewrite Hout).
    assert (Hp : orNull (Argv.output argv) = None) by (now rewrite Hout).
    unfold_run. unfold printPdfOptions. rewrite Ht, Hp. answers.
    all: split; [reflexivity | intros o b Hin; pick Hin].
  - intros p Hout Hne.
    assert (Ht : truthy (Argv.output argv) = true)
      by (rewrite Hout; destruct p; [congruence | reflexivity]).
    assert (Hp : orNull (Argv.output argv) = Some p)
      by (unfold orNull; rewrite Ht; exact Hout).
    apply truthyString_nonempty in Hne.
    unfold_run. unfold printPdfOptions. rewrite Ht, Hp. answers.
    all: try discriminate.
    all: split; [reflexivity | intros o b Hin; pick Hin].
Qed.

Section FileScheme.

(** [file-url] answers with a URL of the file scheme. *)
Hypothesis fileUrl_scheme : forall p, String.prefix "file://" (fileUrl p) = true.

Lemma goto_resolved (eng : Engine) (argv : Argv.t) (u : string) :
  In u (gotoCalls (snd (run (print argv) eng))) \/
  In u (gotoCalls (snd (run (screenshot argv) eng))) ->
  u = if isUrl (Argv.url argv)
      then toString (parseUrl (Argv.url argv))
      else fileUrl (Argv.url argv).
Proof.
  set (target := if isUrl (Argv.url argv)
                 then toString (parseUrl (Argv.url argv))
                 else fileUrl (Argv.url argv)).
  assert (Hp : Only eng (fun c => forall u o, c = Goto u o -> u = target)
                 (print argv)).
  { unfold print. walk; subst target; congruence. }
  assert (Hs : Only eng (fun c => forall u o, c = Goto u o -> u = target)
                 (screenshot argv)).
  { unfold screenshot. walk; subst target; congruence. }
  specialize (Hp []). specialize (Hs []).
  apply gotoCalls_Forall in Hp, Hs. rewrite Forall_forall in Hp, Hs.
  intros [Hin | Hin]; [destruct (Hp u Hin) as [o Ho] | destruct (Hs u Hin) as [o Ho]];
    exact (Ho u o eq_refl).
Qed.

(** C7 (as amended). Every URL [print] and [screenshot] navigate to is
    derived from the target: when [isUrl] accepts the target it is the
    serialisation of the parsed target, which is the target itself where
    parsing and serialising give it back, and otherwise it is the file URL
    of the target, which carries the file scheme. *)
Theorem navigation_url_resolved (eng : Engine) (argv : Argv.t) (u : string) :
  In u (gotoCalls (snd (run (print argv) eng))) \/
  In u (gotoCalls (snd (run (screenshot argv) eng))) ->
  (isUrl (Argv.url argv) = true ->
     u = toString (parseUrl (Argv.url argv)) /\
     (toString (parseUrl (Argv.url argv)) = Argv.url argv -> u = Argv.url argv)) /\
  (isUrl (Argv.url argv) = false ->
     u = fileUrl (Argv.url argv) /\ String.prefix "file://" u = true).
Proof.
  intros Hin. apply goto_resolved in Hin. split; intros Hurl; rewrite Hurl in Hin.
  - split; congruence.
  - split; [exact Hin | rewrite Hin; apply fileUrl_scheme].
Qed.

End FileScheme.

End DriverProperties.

(* ------------------------------------------------------------------ *)
(** ** Concrete runs *)

Example buildCookies_nocolon :
  buildCookies "https://example.com" "abc" = Throws cookieError.
Proof. reflexivity. Qed.

Example unescapeQuotes_footer :
  unescapeQuotes
    (String "<" (String backslash (String dquote (String backslash "n"))))
  = String "<" (String dquote (String backslash "n")).
Proof. reflexivity. Qed.

Example matchViewport_800x600 : matchViewport "800x600" = Some ("800", "600").
Proof. reflexivity. Qed.

Example matchViewport_rejects :
  matchViewport "abcx600" = None /\ matchViewport "800" = None /\
  matchViewport "800x" = None /\ matchViewport "x600" = None /\
  matchViewport "800x600 " = None /\ matchViewport EmptyString = None.
Proof. repeat split. Qed.

Example parseInt_rounds : parseInt "9007199254740993" = Finite 9007199254740992.
Proof. reflexivity. Qed.

Lemma Npm_fileUrl_scheme (p : string) :
  String.prefix "file://" (Npm.fileUrl p) = true.
Proof. unfold Npm.fileUrl. simpl. destruct p; reflexivity. Qed.

Lemma no_viewportForm (s : string) :
  matchViewport s = None -> forall w h, ~ viewportForm s w h.
Proof.
  intros Hs w h Hform. apply matchViewport_form in Hform. congruence.
Qed.

(** C1, counterexample. [print] with a non-empty footer template and the
    default flags hands the engine options with [displayHeaderFooter]
    false and the bottom margin of the command line. *)
Lemma print_footer_not_coupled :
  let argv := Sample.argv "https://example.com/" None "<i>footer</i>" None true in
  exists o,
    pdfCalls (snd (run (Sample.print argv) (Sample.healthy None))) = [o] /\
    Pdf.footerTemplate o = "<i>footer</i>" /\
    Pdf.displayHeaderFooter o = false /\
    Pdf.bottom (Pdf.margin o) = "14.11mm".
Proof.
  eexists. repeat split.
Qed.

Lemma footer_coupling_in_batch_only_witness :
  let argv := Sample.argv "https://example.com/" None "<i>f</i>" None true in
  let eng := Sample.healthy (Some [Sample.entry "<i>f</i>"; Sample.entry EmptyString]) in
  (exists pdf, In pdf (entriesOf eng argv) /\
               Pdf.path (bulkPdfOptions argv (Sample.entry "<i>f</i>"))
               = Some (Manifest.tmpPDFFile pdf) /\
               FooterCoupled argv pdf (bulkPdfOptions argv (Sample.entry "<i>f</i>"))) /\
  Pdf.displayHeaderFooter (printPdfOptions argv) = Argv.displayHeaderFooter argv /\
  Pdf.bottom (Pdf.margin (printPdfOptions argv)) = Argv.marginBottom argv /\
  Pdf.footerTemplate (printPdfOptions argv) = Argv.footerTemplate argv.
Proof.
  intros argv eng.
  destruct (footer_coupling_in_batch_only Npm.isUrl Npm.parseUrl Npm.toString
              Npm.fileUrl eng argv) as [Hbatch Hprint].
  split.
  - apply Hbatch. simpl. left. reflexivity.
  - apply Hprint. simpl. left. reflexivity.
Defined.

(** C2, counterexample. Navigation times out after the browser was
    launched: the error propagates out of [print] and [browser.close] is
    never called. *)
Lemma print_leaves_browser_open_on_timeout :
  let argv := Sample.argv "https://example.com/" None EmptyString None true in
  run (Sample.print argv) Sample.navigationTimesOut
  = (Raised Sample.timeoutError,
     [Ev (Launch (buildLaunchOptions false)) Completed;
      Ev NewPage Completed;
      Ev (Goto "https://example.com/" (buildNavigationOptions 30000 "load"))
         (Threw Sample.timeoutError)]) /\
  ~ In BrowserClose (calls (snd (run (Sample.print argv) Sample.navigationTimesOut))).
Proof.
  split; [reflexivity|]. simpl. intros [H|[H|[H|[]]]]; discriminate.
Qed.

Lemma close_runs_on_success_only_witness :
  let argv := Sample.argv "https://example.com/" None EmptyString None true in
  fst (run (Sample.print argv) Sample.navigationTimesOut) = Raised Sample.timeoutError /\
  ~ In BrowserClose (calls (snd (run (Sample.print argv) Sample.navigationTimesOut))).
Proof.
  intros argv.
  destruct (close_runs_on_success_only Npm.isUrl Npm.parseUrl Npm.toString
              Npm.fileUrl Sample.navigationTimesOut argv) as [[(_ & _ & Hthrown) _] _].
  apply (Hthrown (Goto "https://example.com/" (buildNavigationOptions 30000 "load"))).
  - simpl. right. right. left. reflexivity.
  - discriminate.
Defined.

(** C5, counterexample. The empty string is a viewport string that is
    supplied and does not have the documented shape, yet the run does not
    stop: it navigates, takes the screenshot and returns. *)
Lemma empty_viewport_no_fast_fail :
  let argv := Sample.argv "a.html" None EmptyString (Some EmptyString) true in
  (forall w h, ~ viewportForm EmptyString w h) /\
  fst (run (Sample.screenshotHandler argv) (Sample.healthy None)) = Returned tt /\
  gotoCalls (snd (run (Sample.screenshotHandler argv) (Sample.healthy None)))
  = ["file://a.html"].
Proof.
  repeat split. now apply no_viewportForm.
Qed.

Lemma viewport_parsed_or_fast_fail_witness :
  (exists reply rest,
     snd (run (Sample.screenshotHandler
                 (Sample.argv "a.html" None EmptyString (Some "800x600") true))
              (Sample.healthy None))
     = [Ev (Launch (buildLaunchOptions false)) Completed;
        Ev NewPage Completed;
        Ev (SetViewport {| width := parseInt "800"; height := parseInt "600" |}) reply]
       ++ rest) /\
  parseInt "800" = Finite 800 /\ parseInt "600" = Finite 600 /\
  run (Sample.screenshotHandler
         (Sample.argv "a.html" None EmptyString (Some "abcx600") true))
      (Sample.healthy None)
  = (Exited 1, [Ev (Launch (buildLaunchOptions false)) Completed; Ev NewPage Completed]) /\
  run (Sample.screenshotHandler
         (Sample.argv "a.html" None EmptyString (Some "800") true))
      (Sample.healthy None)
  = (Exited 1, [Ev (Launch (buildLaunchOptions false)) Completed; Ev NewPage Completed]).
Proof.
  pose proof (fun v Hpage =>
    viewport_parsed_or_fast_fail Npm.isUrl Npm.parseUrl Npm.toString Npm.fileUrl
      (Sample.healthy None)
      (Sample.argv "a.html" None EmptyString (Some v) true) eq_refl Hpage) as H.
  assert (Hform : viewportForm "800x600" "800" "600").
  { exists "x"%char. repeat split; auto; discriminate. }
  destruct (H "800x600") as [Hok _]; [simpl; auto|].
  destruct (Hok "800" "600" Hform) as (Htrace & Hw & Hh).
  destruct (H "abcx600") as [_ Habc]; [simpl; auto|].
  destruct (H "800") as [_ H800]; [simpl; auto|].
  split; [exact Htrace|].
  split; [apply Hw; reflexivity|].
  split; [apply Hh; reflexivity|].
  split.
  - apply Habc; [discriminate | now apply no_viewportForm].
  - apply H800; [discriminate | now apply no_viewportForm].
Defined.

(** C6, at the failing input. A batch run with the background flag
    switched off still renders its entry with [printBackground] set. *)
Theorem bulkPrint_ignores_background_flag :
  let argv := Sample.argv "a.html" None EmptyString None false in
  let eng := Sample.healthy (Some [Sample.entry EmptyString]) in
  flagOf "background" bulkPrintBuilder = Some (mkFlag BooleanFlag (DefaultBool true)) /\
  Argv.background argv = false /\
  map Pdf.printBackground (pdfCalls (snd (run (Sample.bulkPrint argv) eng))) = [true] /\
  map Pdf.printBackground
    (pdfCalls (snd (run (Sample.print
                           (Sample.argv "a.html" None EmptyString None false)) eng)))
  = [false].
Proof.
  repeat split.
Qed.

(** C7, counterexample. A target in upper case is accepted as a URL, and
    navigation receives its lower-cased serialisation, not the target. *)
Lemma navigation_url_not_verbatim :
  let argv := Sample.argv "HTTP://EXAMPLE.COM/" None EmptyString None true in
  Npm.isUrl "HTTP://EXAMPLE.COM/" = true /\
  gotoCalls (snd (run (Sample.print argv) (Sample.healthy None)))
  = ["http://example.com/"] /\
  "http://example.com/" <> "HTTP://EXAMPLE.COM/".
Proof.
  repeat split. discriminate.
Qed.

Lemma navigation_url_resolved_witness :
  ("https://example.com/a" = Npm.toString (Npm.parseUrl "https://example.com/a") /\
   "https://example.com/a" = "https://example.com/a") /\
  ("file:///tmp/a.html" = Npm.fileUrl "/tmp/a.html" /\
   String.prefix "file://" "file:///tmp/a.html" = true).
Proof.
  pose proof (fun target =>
    navigation_url_resolved Npm.isUrl Npm.parseUrl Npm.toString Npm.fileUrl
      Npm_fileUrl_scheme
      (Sample.healthy None)
      (Sample.argv target None EmptyString None true)) as H.
  split.
  - destruct (H "https://example.com/a" "https://example.com/a") as [Hurl _].
    + left. simpl. left. reflexivity.
    + destruct (Hurl eq_refl) as [Hu Hv]. split; [exact Hu | apply Hv; reflexivity].
  - destruct (H "/tmp/a.html" "file:///tmp/a.html") as [_ Hfile].
    + right. simpl. left. reflexivity.
    + exact (Hfile eq_refl).
Defined.

Lemma print_output_sink_witness :
  let eng := Sample.healthy None in
  (filesWritten
     (snd (run (Sample.print (Sample.argv "a.html" None EmptyString None true)) eng))
   = [] /\
   stdoutWrites
     (snd (run (Sample.print (Sample.argv "a.html" None EmptyString None true)) eng))
   = [Sample.bytes]) /\
  (stdoutWrites
     (snd (run (Sample.print (Sample.argv "a.html" (Some "a.pdf") EmptyString None true))
               eng))
   = [] /\
   filesWritten
     (snd (run (Sample.print (Sample.argv "a.html" (Some "a.pdf") EmptyString None true))
               eng))
   = [("a.pdf", Sample.bytes)]).
Proof.
  intros eng.
  pose proof (fun output =>
    print_output_sink Npm.isUrl Npm.parseUrl Npm.toString Npm.fileUrl eng
      (Sample.argv "a.html" output EmptyString None true)) as H.
  split.
  - destruct (H None) as [Hnone _]. destruct (Hnone eq_refl) as [Hfiles Hout].
    split; [exact Hfiles|].
    apply (Hout (printPdfOptions (Sample.argv "a.html" None EmptyString None true))).
    simpl. right. right. right. left. reflexivity.
  - destruct (H (Some "a.pdf")) as [_ Hsome].
    destruct (Hsome "a.pdf" eq_refl) as [Hout Hfiles]; [discriminate|].
    split; [exact Hout|].
    apply (Hfiles (printPdfOptions
                     (Sample.argv "a.html" (Some "a.pdf") EmptyString None true))).
    simpl. right. right. right. left. reflexivity.
Defined.

(** C10, counterexample. The empty string is a viewport string that is
    supplied and malformed, yet no fast-fail termination occurs: the run
    returns, and [browser.close] is called. *)
Lemma empty_viewport_browser_closed :
  let argv := Sample.argv "a.html" None EmptyString (Some EmptyString) true in
  Argv.viewport argv = Some EmptyString /\
  (forall w h, ~ viewportForm EmptyString w h) /\
  fst (run (Sample.screenshot argv) (Sample.healthy None)) = Returned tt /\
  In (Ev BrowserClose Completed)
     (snd (run (Sample.screenshot argv) (Sample.healthy None))).
Proof.
  split; [reflexivity|]. split; [now apply no_viewportForm|].
  split; [reflexivity|]. simpl. auto 10.
Qed.

Lemma fast_fail_leaves_browser_open_witness :
  let argv := Sample.argv "a.html" None EmptyString (Some "abcx600") true in
  ~ In BrowserClose (calls (snd (run (Sample.screenshot argv) (Sample.healthy None)))) /\
  snd (run (Sample.screenshot argv) (Sample.healthy None))
  = [Ev (Launch (buildLaunchOptions false)) Completed; Ev NewPage Completed] /\
  fst (run (Sample.screenshot argv) (Sample.healthy None)) = Exited 1.
Proof.
  intros argv.
  destruct (@fast_fail_leaves_browser_open _ Npm.isUrl Npm.parseUrl Npm.toString
              Npm.fileUrl (Sample.healthy None) argv "abcx600" eq_refl)
    as (Hclose & Hexit & Hlive).
  - discriminate.
  - now apply no_viewportForm.
  - split; [exact Hclose|]. split.
    + apply (Hexit 1). reflexivity.
    + apply Hlive. simpl. right. left. reflexivity.
Defined.

(* ================================================================== *)
(** * Further properties of the code *)

(* ------------------------------------------------------------------ *)
(** ** The batch loop, entry by entry *)

Lemma gotoCalls_app (a b : list Event) :
  gotoCalls (a ++ b) = gotoCalls a ++ gotoCalls b.
Proof.
  induction a as [|[c r] a IH]; simpl; [reflexivity|].
  destruct c; simpl; now rewrite ?IH.
Qed.

Lemma pdfCalls_app (a b : list Event) :
  pdfCalls (a ++ b) = pdfCalls a ++ pdfCalls b.
Proof.
  induction a as [|[c r] a IH]; simpl; [reflexivity|].
  destruct c; simpl; now rewrite ?IH.
Qed.

Lemma sleepCalls_app (a b : list Event) :
  sleepCalls (a ++ b) = sleepCalls a ++ sleepCalls b.
Proof.
  induction a as [|[c r] a IH]; simpl; [reflexivity|].
  destruct c; simpl; now rewrite ?IH.
Qed.

Lemma rendered_app (a b : list Event) :
  rendered (a ++ b) = rendered a ++ rendered b.
Proof.
  induction a as [|[c r] a IH]; simpl; [reflexivity|].
  destruct c; try exact IH. destruct r; simpl; now rewrite ?IH.
Qed.

Lemma stdoutWrites_app (a b : list Event) :
  stdoutWrites (a ++ b) = stdoutWrites a ++ stdoutWrites b.
Proof.
  induction a as [|[c r] a IH]; simpl; [reflexivity|].
  destruct c; simpl; now rewrite ?IH.
Qed.

Lemma filesWritten_app (a b : list Event) :
  filesWritten (a ++ b) = filesWritten a ++ filesWritten b.
Proof.
  induction a as [|[c r] a IH]; simpl; [reflexivity|].
  destruct c; try exact IH; destruct r; simpl; rewrite ?IH, ?app_assoc; reflexivity.
Qed.

Lemma countCalls_app (p : Call -> bool) (a b : list Event) :
  countCalls p (a ++ b) = (countCalls p a + countCalls p b)%nat.
Proof.
  unfold countCalls, calls. now rewrite map_app, filter_app, length_app.
Qed.

Lemma countCalls_none (p : Call -> bool) (tr : list Event) :
  Forall (fun ev => p (ev_call ev) = false) tr -> countCalls p tr = 0%nat.
Proof.
  unfold countCalls, calls. induction 1 as [|ev tr Hev Htr IH]; simpl; auto.
  now rewrite Hev.
Qed.

Section BatchProperties.

Variable fileUrl : string -> string.

(** The loop of [bulkPrint] runs as [LoopRun] describes. *)
Lemma bulkLoop_runs (argv : Argv.t) (config : list Manifest.Entry)
  (eng : Engine) (h : list Event) :
  LoopRun fileUrl argv config
    (fst (bulkLoop fileUrl argv config eng h))
    (snd (bulkLoop fileUrl argv config eng h)).
Proof.
  revert h. induction config as [|pdf rest IH]; intros h; simpl.
  - constructor.
  - unfold bind, call, callBuffer.
    destruct (fails eng h _) as [e|]; simpl; [constructor|].
    destruct (fails eng (h ++ _) _) as [e|]; simpl; [constructor|].
    destruct (fails eng ((h ++ _) ++ _) _) as [e|]; simpl; [constructor|].
    match goal with
    | |- context [bulkLoop fileUrl argv rest eng ?h'] =>
        specialize (IH h'); destruct (bulkLoop fileUrl argv rest eng h') as [o t]
    end.
    simpl in *. now constructor.
Qed.

(** A run of the loop either returns or lets an error propagate. *)
Lemma LoopRun_outcome (argv : Argv.t) (config : list Manifest.Entry)
  (out : Outcome unit) (t : list Event) :
  LoopRun fileUrl argv config out t ->
  out = Returned tt \/ exists e, out = Raised e.
Proof. induction 1; eauto. Qed.

(** What a run of the loop navigates to and renders: the entries in
    manifest order, up to the one at which it stops. *)
Lemma LoopRun_order (argv : Argv.t) (config : list Manifest.Entry)
  (out : Outcome unit) (t : list Event) :
  LoopRun fileUrl argv config out t ->
  exists n m : nat,
    (m <= n <= m + 1)%nat /\
    gotoCalls t = map (fun pdf => fileUrl (Manifest.htmlFile pdf)) (firstn n config) /\
    pdfCalls t = map (bulkPdfOptions argv) (firstn m config) /\
    (out = Returned tt -> firstn n config = config /\ firstn m config = config).
Proof.
  induction 1 as [|pdf rest e|pdf rest e|pdf rest b e|pdf rest b out t _ IH].
  - exists 0%nat, 0%nat. repeat split; simpl; try lia; reflexivity.
  - exists 1%nat, 0%nat. repeat split; simpl; try lia; try reflexivity; discriminate.
  - exists 1%nat, 1%nat. repeat split; simpl; try lia; try reflexivity; discriminate.
  - exists 1%nat, 1%nat. repeat split; simpl; try lia; try reflexivity; discriminate.
  - destruct IH as (n & m & Hnm & Hg & Hp & Hret).
    exists (S n), (S m). simpl. rewrite Hg, Hp.
    split; [lia|]. split; [reflexivity|]. split; [reflexivity|].
    intros Hout. destruct (Hret Hout) as [Hn Hm]. split; congruence.
Qed.

Lemma LoopRun_sleeps (argv : Argv.t) (config : list Manifest.Entry)
  (out : Outcome unit) (t : list Event) :
  LoopRun fileUrl argv config out t ->
  sleepCalls t = map (fun _ => 20) (rendered t) /\
  stdoutWrites t = [] /\
  Forall (fun f => exists pdf, In pdf config /\ fst f = Manifest.tmpPDFFile pdf)
         (filesWritten t).
Proof.
  induction 1 as [|pdf rest e|pdf rest e|pdf rest b e|pdf rest b out t _ IH];
    simpl; repeat split; auto.
  - unfold fileAt. destruct (truthyString (Manifest.tmpPDFFile pdf)); simpl; auto.
    constructor; [|constructor]. exists pdf. simpl. auto.
  - destruct IH as (-> & _ & _). reflexivity.
  - apply IH.
  - destruct IH as (_ & _ & IH). apply Forall_app. split.
    + unfold fileAt. destruct (truthyString (Manifest.tmpPDFFile pdf)); simpl; auto.
      constructor; [|constructor]. exists pdf. simpl. auto.
    + eapply Forall_impl; [|exact IH]. simpl. intros f (pdf' & Hin & Hf).
      exists pdf'. auto.
Qed.

Lemma LoopRun_calls (argv : Argv.t) (config : list Manifest.Entry)
  (out : Outcome unit) (t : list Event) :
  LoopRun fileUrl argv config out t ->
  Forall (fun ev => match ev_call ev with
                    | Goto _ _ | PagePdf _ | Sleep _ => True
                    | _ => False
                    end) t.
Proof. induction 1; repeat constructor; assumption. Qed.

(** [bulkPrint] runs as [BulkRun] describes. *)
Lemma bulkPrint_runs (eng : Engine) (argv : Argv.t) :
  BulkRun fileUrl argv eng
    (fst (run (bulkPrint fileUrl argv) eng))
    (snd (run (bulkPrint fileUrl argv) eng)).
Proof.
  unfold run, bulkPrint, bind, readBatchData, call.
  destruct (fails eng [] _) as [e|]; simpl; [constructor|].
  destruct (fails eng [_] _) as [e|]; simpl; [constructor|].
  destruct (fails eng [_; _] _) as [e|]; simpl; [constructor|].
  destruct (batchData eng (Argv.batchFile argv)) as [entries|] eqn:Hdata; simpl.
  - match goal with
    | |- context [bulkLoop fileUrl argv entries eng ?h'] =>
        pose proof (bulkLoop_runs argv entries eng h') as Hloop;
        destruct (bulkLoop fileUrl argv entries eng h') as [o t]
    end.
    simpl in *. destruct (LoopRun_outcome Hloop) as [-> | [e ->]]; simpl.
    + destruct (fails eng _ BrowserClose) as [e|]; simpl.
      * apply (BulkCloseThrows eng e Hdata Hloop).
      * apply (BulkDone eng Hdata Hloop).
    + apply (BulkLoopStops eng Hdata Hloop).
  - now apply BulkNotIterable.
Qed.

Lemma LoopRun_count (p : Call -> bool) (argv : Argv.t)
  (config : list Manifest.Entry) (out : Outcome unit) (t : list Event) :
  (forall u o, p (Goto u o) = false) ->
  (forall o, p (PagePdf o) = false) ->
  (forall ms, p (Sleep ms) = false) ->
  LoopRun fileUrl argv config out t -> countCalls p t = 0%nat.
Proof.
  intros Hg Hp Hs Hrun. apply LoopRun_calls in Hrun.
  unfold countCalls, calls. induction Hrun as [|[c r] t Hc _ IH]; simpl; auto.
  destruct c; simpl in Hc; try contradiction; rewrite ?Hg, ?Hp, ?Hs; exact IH.
Qed.

(** X1. A batch run navigates to and renders the entries of the manifest
    in manifest order, each source through [fileUrl] and each with the
    options of its entry, up to the entry at which it stops; a run that
    returns has gone through all of them. *)
Theorem bulkPrint_manifest_order (eng : Engine) (argv : Argv.t) :
  exists n m : nat,
    (m <= n <= m + 1)%nat /\
    gotoCalls (snd (run (bulkPrint fileUrl argv) eng))
    = map (fun pdf => fileUrl (Manifest.htmlFile pdf)) (firstn n (entriesOf eng argv)) /\
    pdfCalls (snd (run (bulkPrint fileUrl argv) eng))
    = map (bulkPdfOptions argv) (firstn m (entriesOf eng argv)) /\
    (fst (run (bulkPrint fileUrl argv) eng) = Returned tt ->
       firstn n (entriesOf eng argv) = entriesOf eng argv /\
       firstn m (entriesOf eng argv) = entriesOf eng argv).
Proof.
  pose proof (bulkPrint_runs eng argv) as Hrun. unfold entriesOf.
  destruct (run (bulkPrint fileUrl argv) eng) as [out tr]; simpl in Hrun |- *.
  destruct Hrun as [e|e|e|Hd|entries e t Hd Hl|entries e t Hd Hl|entries t Hd Hl];
    try (exists 0%nat, 0%nat; repeat split; simpl; try lia; discriminate);
    rewrite Hd; destruct (LoopRun_order Hl) as (n & m & Hnm & Hg & Hp & Hret);
    exists n, m; unfold batchSetup; simpl;
    rewrite ?gotoCalls_app, ?pdfCalls_app; simpl; rewrite ?app_nil_r;
    (split; [exact Hnm|]); (split; [exact Hg|]); (split; [exact Hp|]);
    first [discriminate | intros _; now apply Hret].
Qed.

(** X2. A batch run writes nothing to standard output, and every file it
    leaves on disk is the [tmpPDFFile] of an entry of the manifest. *)
Theorem bulkPrint_writes_entry_files_only (eng : Engine) (argv : Argv.t) :
  stdoutWrites (snd (run (bulkPrint fileUrl argv) eng)) = [] /\
  Forall (fun f => exists pdf, In pdf (entriesOf eng argv) /\
                               fst f = Manifest.tmpPDFFile pdf)
         (filesWritten (snd (run (bulkPrint fileUrl argv) eng))).
Proof.
  pose proof (bulkPrint_runs eng argv) as Hrun. unfold entriesOf.
  destruct (run (bulkPrint fileUrl argv) eng) as [out tr]; simpl in Hrun |- *.
  destruct Hrun as [e|e|e|Hd|entries e t Hd Hl|entries e t Hd Hl|entries t Hd Hl];
    try (split; [reflexivity | constructor]);
    rewrite Hd; destruct (LoopRun_sleeps Hl) as (_ & Hout & Hfiles);
    unfold batchSetup; simpl; rewrite ?stdoutWrites_app, ?filesWritten_app; simpl;
    rewrite ?Hout, ?app_nil_r; split; auto.
Qed.

(** X3. In a batch run every rendered document is followed by one delay
    of 20 milliseconds, and there is no other delay. *)
Theorem bulkPrint_sleeps_after_each_render (eng : Engine) (argv : Argv.t) :
  sleepCalls (snd (run (bulkPrint fileUrl argv) eng))
  = map (fun _ => 20) (rendered (snd (run (bulkPrint fileUrl argv) eng))).
Proof.
  pose proof (bulkPrint_runs eng argv) as Hrun.
  destruct (run (bulkPrint fileUrl argv) eng) as [out tr]; simpl in Hrun |- *.
  destruct Hrun as [e|e|e|Hd|entries e t Hd Hl|entries e t Hd Hl|entries t Hd Hl];
    try reflexivity;
    destruct (LoopRun_sleeps Hl) as (Hs & _ & _);
    unfold batchSetup; simpl; rewrite ?sleepCalls_app, ?rendered_app; simpl;
    rewrite ?app_nil_r; exact Hs.
Qed.

(** X4. When what the batch document holds under [data] cannot be
    iterated (a missing key, [null], a number, a boolean, a plain object),
    the run navigates nowhere, renders nothing and never closes the
    browser; once the page is open it ends with the type error of the
    loop. *)
Theorem bulkPrint_without_entries (eng : Engine) (argv : Argv.t) :
  batchData eng (Argv.batchFile argv) = None ->
  gotoCalls (snd (run (bulkPrint fileUrl argv) eng)) = [] /\
  pdfCalls (snd (run (bulkPrint fileUrl argv) eng)) = [] /\
  ~ In BrowserClose (calls (snd (run (bulkPrint fileUrl argv) eng))) /\
  (In (Ev NewPage Completed) (snd (run (bulkPrint fileUrl argv) eng)) ->
     fst (run (bulkPrint fileUrl argv) eng) = Raised notIterable).
Proof.
  intros Hnone. pose proof (bulkPrint_runs eng argv) as Hrun.
  destruct (run (bulkPrint fileUrl argv) eng) as [out tr]; simpl in Hrun |- *.
  destruct Hrun as [e|e|e|Hd|entries e t Hd Hl|entries e t Hd Hl|entries t Hd Hl];
    try congruence;
    repeat split; simpl; auto;
    try (intros [H|[H|[H|[]]]]; discriminate);
    try (intros [H|[H|[]]]; discriminate);
    try (intros [H|[]]; discriminate).
Qed.

(** X5. A batch run launches at most one browser and opens at most one
    page, whatever the number of entries, and it launches the browser only
    after the batch file was read. *)
Theorem bulkPrint_single_browser (eng : Engine) (argv : Argv.t) :
  (countCalls isLaunch (snd (run (bulkPrint fileUrl argv) eng)) <= 1)%nat /\
  (countCalls isNewPage (snd (run (bulkPrint fileUrl argv) eng)) <= 1)%nat /\
  (countCalls isLaunch (snd (run (bulkPrint fileUrl argv) eng)) = 1%nat ->
     hd_error (snd (run (bulkPrint fileUrl argv) eng))
     = Some (Ev (ReadBatchFile (Argv.batchFile argv)) Completed)).
Proof.
  pose proof (bulkPrint_runs eng argv) as Hrun.
  destruct (run (bulkPrint fileUrl argv) eng) as [out tr]; simpl in Hrun |- *.
  destruct Hrun as [e|e|e|Hd|entries e t Hd Hl|entries e t Hd Hl|entries t Hd Hl];
    rewrite ?countCalls_app;
    try rewrite (LoopRun_count isLaunch (ltac:(reflexivity)) (ltac:(reflexivity))
                   (ltac:(reflexivity)) Hl);
    try rewrite (LoopRun_count isNewPage (ltac:(reflexivity)) (ltac:(reflexivity))
                   (ltac:(reflexivity)) Hl);
    unfold countCalls; simpl; repeat split; intros;
    try lia; try discriminate; reflexivity.
Qed.

End BatchProperties.

(* ------------------------------------------------------------------ *)
(** ** How a run can end *)

Lemma ExitsWithOne_ret {A : Type} (a : A) : ExitsWithOne (ret a).
Proof. intros eng h code; discriminate. Qed.

Lemma ExitsWithOne_throw {A : Type} (e : Error) : ExitsWithOne (@throw A e).
Proof. intros eng h code; discriminate. Qed.

Lemma ExitsWithOne_processExit {A : Type} : ExitsWithOne (@processExit A 1).
Proof. intros eng h code; simpl; congruence. Qed.

Lemma ExitsWithOne_eval {A : Type} (c : Completion A) : ExitsWithOne (eval c).
Proof. destruct c; intros eng h code; discriminate. Qed.

Lemma ExitsWithOne_call (c : Call) : ExitsWithOne (call c).
Proof.
  intros eng h code. unfold call. destruct (fails eng h c); discriminate.
Qed.

Lemma ExitsWithOne_callBuffer (c : Call) : ExitsWithOne (callBuffer c).
Proof.
  intros eng h code. unfold callBuffer. destruct (fails eng h c); discriminate.
Qed.

Lemma ExitsWithOne_readBatchData (path : string) : ExitsWithOne (readBatchData path).
Proof.
  intros eng h code. unfold readBatchData.
  destruct (fails eng h (ReadBatchFile path)); discriminate.
Qed.

Lemma ExitsWithOne_bind {A B : Type} (m : M A) (k : A -> M B) :
  ExitsWithOne m -> (forall a, ExitsWithOne (k a)) -> ExitsWithOne (bind m k).
Proof.
  intros Hm Hk eng h code. unfold bind.
  specialize (Hm eng h code).
  destruct (m eng h) as [[a|e|c] t1]; simpl in *.
  - specialize (Hk a eng (h ++ t1) code).
    destruct (k a eng (h ++ t1)) as [o t2]; simpl in *. exact Hk.
  - discriminate.
  - intros Hc. inversion Hc; subst. now apply Hm.
Qed.

Lemma ExitsWithOne_whenTruthy (s : option string) (k : string -> M unit) :
  (forall v, ExitsWithOne (k v)) -> ExitsWithOne (whenTruthy s k).
Proof.
  intros Hk. unfold whenTruthy.
  destruct s as [v|]; [destruct (truthyString v)|]; auto; apply ExitsWithOne_ret.
Qed.

#[export] Hint Resolve ExitsWithOne_ret ExitsWithOne_throw ExitsWithOne_processExit
  ExitsWithOne_eval ExitsWithOne_call ExitsWithOne_callBuffer
  ExitsWithOne_readBatchData ExitsWithOne_bind ExitsWithOne_whenTruthy : trace.

Ltac walk_exits :=
  repeat (cbv beta zeta;
          match goal with
          | |- forall _, _ => intro
          | |- ExitsWithOne (bind _ _) => apply ExitsWithOne_bind
          | |- ExitsWithOne (whenTruthy _ _) => apply ExitsWithOne_whenTruthy
          | |- ExitsWithOne (match ?x with _ => _ end) => destruct x
          | |- ExitsWithOne _ => solve [auto with trace]
          end).

(** A handler built as in [index.js] around an operation that logs nothing
    and exits, if at all, with status 1. *)
Lemma handler_ends (label : string) (op : M unit) (eng : Engine) :
  ExitsWithOne op ->
  Only eng (fun c => isLog c = false) op ->
  (fst (run (tryCatch op (fun err => consoleLog label err ;; processExit 1)) eng)
   = Returned tt \/
   fst (run (tryCatch op (fun err => consoleLog label err ;; processExit 1)) eng)
   = Exited 1) /\
  (countCalls isLog
     (snd (run (tryCatch op (fun err => consoleLog label err ;; processExit 1)) eng))
   <= 1)%nat /\
  (fst (run (tryCatch op (fun err => consoleLog label err ;; processExit 1)) eng)
   = Returned tt ->
   countCalls isLog
     (snd (run (tryCatch op (fun err => consoleLog label err ;; processExit 1)) eng))
   = 0%nat).
Proof.
  intros Hexit Hlog. unfold run, tryCatch.
  specialize (Hexit eng []). specialize (Hlog []). apply countCalls_none in Hlog.
  destruct (op eng []) as [[[]|e|code] t]; simpl in *.
  - rewrite Hlog. repeat split; auto.
  - rewrite countCalls_app, Hlog. repeat split; auto; discriminate.
  - rewrite (Hexit code eq_refl), Hlog. repeat split; auto; discriminate.
Qed.

Section EndProperties.

Variable Url : Type.
Variable isUrl : string -> bool.
Variable parseUrl : string -> Url.
Variable toString : Url -> string.
Variable fileUrl : string -> string.

Local Abbreviation print := (print isUrl parseUrl toString fileUrl).
Local Abbreviation screenshot := (screenshot isUrl parseUrl toString fileUrl).
Local Abbreviation screenshotHandler :=
  (screenshotHandler isUrl parseUrl toString fileUrl).
Local Abbreviation printHandler := (printHandler isUrl parseUrl toString fileUrl).
Local Abbreviation bulkPrint := (bulkPrint fileUrl).
Local Abbreviation bulkPrintHandler := (bulkPrintHandler fileUrl).
Local Abbreviation bulkLoop := (bulkLoop fileUrl).

Lemma ExitsWithOne_bulkLoop (argv : Argv.t) (config : list Manifest.Entry) :
  ExitsWithOne (bulkLoop argv config).
Proof. induction config as [|pdf rest IH]; simpl; walk_exits. Qed.

(** X6. No exception escapes a command handler: its run either returns or
    stops the process with status 1, it logs at most one error, and none
    when it returns. *)
Theorem handlers_return_or_exit_one (eng : Engine) (argv : Argv.t) :
  ((fst (run (printHandler argv) eng) = Returned tt \/
    fst (run (printHandler argv) eng) = Exited 1) /\
   (countCalls isLog (snd (run (printHandler argv) eng)) <= 1)%nat /\
   (fst (run (printHandler argv) eng) = Returned tt ->
    countCalls isLog (snd (run (printHandler argv) eng)) = 0%nat)) /\
  ((fst (run (screenshotHandler argv) eng) = Returned tt \/
    fst (run (screenshotHandler argv) eng) = Exited 1) /\
   (countCalls isLog (snd (run (screenshotHandler argv) eng)) <= 1)%nat /\
   (fst (run (screenshotHandler argv) eng) = Returned tt ->
    countCalls isLog (snd (run (screenshotHandler argv) eng)) = 0%nat)) /\
  ((fst (run (bulkPrintHandler argv) eng) = Returned tt \/
    fst (run (bulkPrintHandler argv) eng) = Exited 1) /\
   (countCalls isLog (snd (run (bulkPrintHandler argv) eng)) <= 1)%nat /\
   (fst (run (bulkPrintHandler argv) eng) = Returned tt ->
    countCalls isLog (snd (run (bulkPrintHandler argv) eng)) = 0%nat)).
Proof.
  split; [|split].
  - apply handler_ends.
    + unfold print. walk_exits.
    + unfold print. walk; reflexivity.
  - apply handler_ends.
    + unfold screenshot. walk_exits.
    + unfold screenshot. walk; reflexivity.
  - apply handler_ends.
    + unfold bulkPrint. walk_exits. apply ExitsWithOne_bulkLoop.
    + unfold bulkPrint. walk; try reflexivity.
      apply Only_bulkLoop. intros pdf _. repeat split.
Qed.

End EndProperties.

(* ------------------------------------------------------------------ *)
(** ** Single-document runs, call by call *)

Lemma buildCookies_throws (url s : string) :
  hasChar colon s = false -> buildCookies url s = Throws cookieError.
Proof.
  intros H. unfold buildCookies, buildCookie, indexOf; simpl.
  now rewrite indexOfFrom_absent.
Qed.

Section CallProperties.

Variable Url : Type.
Variable isUrl : string -> bool.
Variable parseUrl : string -> Url.
Variable toString : Url -> string.
Variable fileUrl : string -> string.

Local Abbreviation print := (print isUrl parseUrl toString fileUrl).
Local Abbreviation screenshot := (screenshot isUrl parseUrl toString fileUrl).
Local Abbreviation bulkPrint := (bulkPrint fileUrl).

Arguments buildCookies : simpl never.
Arguments buildLaunchOptions : simpl never.
Arguments buildNavigationOptions : simpl never.
Arguments printPdfOptions : simpl never.
Arguments matchViewport : simpl never.
Arguments parseInt : simpl never.
Arguments truthyString : simpl never.
Arguments truthy : simpl never.
Arguments orNull : simpl never.

(** Case analysis on everything a single-document run branches on. *)
Ltac branches :=
  repeat (simpl in *;
          match goal with
          | |- context [fails ?e ?h ?c] => destruct (fails e h c) eqn:?
          | |- context [match buildCookies ?u ?c with _ => _ end] =>
              destruct (buildCookies u c) eqn:?
          | |- context [match matchViewport ?v with _ => _ end] =>
              destruct (matchViewport v) as [[? ?]|] eqn:?
          | |- context [if truthyString ?v then _ else _] =>
              destruct (truthyString v) eqn:?
          | |- context [match Argv.cookie ?a with _ => _ end] =>
              destruct (Argv.cookie a) eqn:?
          | |- context [match Argv.viewport ?a with _ => _ end] =>
              destruct (Argv.viewport a) eqn:?
          | |- context [truthy ?x] => destruct (truthy x) eqn:?
          end).

Ltac unfold_op :=
  unfold run, screenshot, print, bind, call, callBuffer, whenTruthy, eval, ret,
    throw, processExit.

Ltac in_trace Hin :=
  simpl in Hin;
  repeat (destruct Hin as [Hin | Hin];
          [try discriminate Hin; try (inversion Hin; subst; clear Hin) |]);
  try contradiction.

(** X7. Cookies are injected before navigation: when a cookie is given,
    any navigation of [print] or [screenshot] comes after a completed
    [page.setCookie] with the cookies [buildCookies] made of it. *)
Theorem cookie_set_before_navigation (eng : Engine) (argv : Argv.t)
  (cookie : string) :
  Argv.cookie argv = Some cookie ->
  cookie <> EmptyString ->
  (gotoCalls (snd (run (print argv) eng)) <> [] ->
     exists cookies,
       buildCookies (Argv.url argv) cookie = Normal cookies /\
       In (Ev (SetCookie cookies) Completed)
          (beforeGoto (snd (run (print argv) eng)))) /\
  (gotoCalls (snd (run (screenshot argv) eng)) <> [] ->
     exists cookies,
       buildCookies (Argv.url argv) cookie = Normal cookies /\
       In (Ev (SetCookie cookies) Completed)
          (beforeGoto (snd (run (screenshot argv) eng)))).
Proof.
  intros Hc Hne. apply truthyString_nonempty in Hne.
  destruct (buildCookies (Argv.url argv) cookie) as [cookies|e] eqn:Hb.
  - split; unfold_op; rewrite Hc, Hne, Hb; branches;
      intros Hgoto; simpl in Hgoto; try congruence;
      exists cookies; (split; [reflexivity|]);
      repeat first [left; reflexivity | right].
  - split; unfold_op; rewrite Hc, Hne, Hb; branches;
      intros Hgoto; simpl in Hgoto; congruence.
Qed.

(** X8. A cookie without colon stops [print] and [screenshot] before any
    navigation or render, and the browser is not closed; once its page is
    open, [print] ends with the error of [buildCookies]. *)
Theorem malformed_cookie_stops_before_navigation (eng : Engine) (argv : Argv.t)
  (cookie : string) :
  Argv.cookie argv = Some cookie ->
  cookie <> EmptyString ->
  hasChar colon cookie = false ->
  (gotoCalls (snd (run (print argv) eng)) = [] /\
   pdfCalls (snd (run (print argv) eng)) = [] /\
   ~ In BrowserClose (calls (snd (run (print argv) eng))) /\
   (In (Ev NewPage Completed) (snd (run (print argv) eng)) ->
      fst (run (print argv) eng) = Raised cookieError)) /\
  (gotoCalls (snd (run (screenshot argv) eng)) = [] /\
   shotCalls (snd (run (screenshot argv) eng)) = [] /\
   ~ In BrowserClose (calls (snd (run (screenshot argv) eng)))).
Proof.
  intros Hc Hne Hcolon. apply truthyString_nonempty in Hne.
  pose proof (@buildCookies_throws (Argv.url argv) cookie Hcolon) as Hb.
  split; unfold_op; rewrite Hc, Hne, Hb; branches.
  all: repeat split; try reflexivity; intros Hin; in_trace Hin.
Qed.

(** X9. Without cookie, or with the empty string as cookie, [print] and
    [screenshot] run as if the cookie flag were absent: same outcome and
    same calls.  They never call [page.setCookie], and [buildCookies] is
    skipped: an error that propagates is the error of a call that threw,
    never the one of a cookie without colon. *)
Theorem no_cookie_no_setCookie (eng : Engine) (argv : Argv.t) :
  truthy (Argv.cookie argv) = false ->
  (run (print argv) eng = run (print (withCookie None argv)) eng /\
   run (screenshot argv) eng = run (screenshot (withCookie None argv)) eng) /\
  (Forall (fun ev => isSetCookie (ev_call ev) = false) (snd (run (print argv) eng)) /\
   Forall (fun ev => isSetCookie (ev_call ev) = false)
          (snd (run (screenshot argv) eng))) /\
  (forall e, fst (run (print argv) eng) = Raised e ->
     exists c, In (Ev c (Threw e)) (snd (run (print argv) eng))) /\
  (forall e, fst (run (screenshot argv) eng) = Raised e ->
     exists c, In (Ev c (Threw e)) (snd (run (screenshot argv) eng))).
Proof.
  intros Hc.
  assert (Hk : forall k, whenTruthy (Argv.cookie argv) k = ret tt).
  { intros k. unfold whenTruthy. destruct (Argv.cookie argv) as [c|]; [|reflexivity].
    unfold truthyString. now rewrite Hc. }
  split; [|split; [|split]].
  - split; unfold run, screenshot, print; rewrite Hk; reflexivity.
  - split; unfold run, screenshot, print; rewrite Hk; unfold_op; branches.
    all: repeat constructor.
  - unfold run, print; rewrite Hk; unfold_op; branches.
    all: intros e' He; try discriminate He; inversion He; subst;
      eexists; repeat first [left; reflexivity | right].
  - unfold run, screenshot; rewrite Hk; unfold_op; branches.
    all: intros e' He; try discriminate He; inversion He; subst;
      eexists; repeat first [left; reflexivity | right].
Qed.

(** X10. [screenshot] has the output rule of [print]: without output
    argument no file is created and the image goes to the one write on
    standard output; with an output path nothing is written to standard
    output and the image is stored at that path. *)
Theorem screenshot_output_sink (eng : Engine) (argv : Argv.t) :
  (Argv.output argv = None ->
     filesWritten (snd (run (screenshot argv) eng)) = [] /\
     forall o b,
       In (Ev (PageScreenshot o) (Produced b)) (snd (run (screenshot argv) eng)) ->
       stdoutWrites (snd (run (screenshot argv) eng)) = [b]) /\
  (forall p, Argv.output argv = Some p -> p <> EmptyString ->
     stdoutWrites (snd (run (screenshot argv) eng)) = [] /\
     forall o b,
       In (Ev (PageScreenshot o) (Produced b)) (snd (run (screenshot argv) eng)) ->
       filesWritten (snd (run (screenshot argv) eng)) = [(p, b)]).
Proof.
  split.
  - intros Hout.
    assert (Ht : truthy (Argv.output argv) = false) by (now rewrite Hout).
    assert (Hp : orNull (Argv.output argv) = None) by (now rewrite Hout).
    unfold_op. rewrite Ht, Hp. branches.
    all: split; [reflexivity | intros o b Hin; in_trace Hin; reflexivity].
  - intros p Hout Hne.
    assert (Ht : truthy (Argv.output argv) = true)
      by (rewrite Hout; destruct p; [congruence | reflexivity]).
    assert (Hp : orNull (Argv.output argv) = Some p)
      by (unfold orNull; rewrite Ht; exact Hout).
    apply truthyString_nonempty in Hne.
    unfold_op. rewrite Ht, Hp. branches.
    all: try discriminate.
    all: split; [reflexivity | intros o b Hin; in_trace Hin; reflexivity].
Qed.

(** X11. A single-document run navigates at most once and renders at most
    once, with the render of its own command only; a run that returns did
    both exactly once. *)
Theorem single_document_renders_once (eng : Engine) (argv : Argv.t) :
  ((List.length (gotoCalls (snd (run (print argv) eng))) <= 1)%nat /\
   (List.length (pdfCalls (snd (run (print argv) eng))) <= 1)%nat /\
   shotCalls (snd (run (print argv) eng)) = [] /\
   (fst (run (print argv) eng) = Returned tt ->
      List.length (gotoCalls (snd (run (print argv) eng))) = 1%nat /\
      rendered (snd (run (print argv) eng)) = [printPdfOptions argv])) /\
  ((List.length (gotoCalls (snd (run (screenshot argv) eng))) <= 1)%nat /\
   (List.length (shotCalls (snd (run (screenshot argv) eng))) <= 1)%nat /\
   pdfCalls (snd (run (screenshot argv) eng)) = [] /\
   (fst (run (screenshot argv) eng) = Returned tt ->
      List.length (gotoCalls (snd (run (screenshot argv) eng))) = 1%nat /\
      List.length (shotCalls (snd (run (screenshot argv) eng))) = 1%nat)).
Proof.
  split; unfold_op; branches.
  all: repeat split; simpl in *; try lia; try reflexivity; congruence.
Qed.

(** X12. The sandbox, timeout and wait-until flags govern every launch
    and every navigation of the three operations, each batch entry
    included. *)
Theorem launch_and_navigation_flags (eng : Engine) (argv : Argv.t) :
  Forall (fun ev => FlagsGovern argv (ev_call ev)) (snd (run (print argv) eng)) /\
  Forall (fun ev => FlagsGovern argv (ev_call ev)) (snd (run (screenshot argv) eng)) /\
  Forall (fun ev => FlagsGovern argv (ev_call ev)) (snd (run (bulkPrint argv) eng)).
Proof.
  assert (Hlaunch : FlagsGovern argv (Launch (buildLaunchOptions (Argv.sandbox argv)))).
  { unfold FlagsGovern. destruct (Argv.sandbox argv); reflexivity. }
  assert (Hp : Only eng (FlagsGovern argv) (print argv)).
  { unfold print. walk; try exact Hlaunch; try exact I; split; reflexivity. }
  assert (Hs : Only eng (FlagsGovern argv) (screenshot argv)).
  { unfold screenshot. walk; try exact Hlaunch; try exact I; split; reflexivity. }
  assert (Hb : Only eng (FlagsGovern argv) (bulkPrint argv)).
  { unfold bulkPrint. walk; try exact Hlaunch; try exact I.
    apply Only_bulkLoop. intros pdf _. repeat split. }
  repeat split; [exact (Hp []) | exact (Hs []) | exact (Hb [])].
Qed.

(** X18. [page.setViewport] is called only by [screenshot], only for a
    viewport string of the documented shape, and with the numbers
    [parseInt] reads from its two digit runs. *)
Theorem setViewport_only_for_matching_spec (eng : Engine) (argv : Argv.t) :
  (forall vp r, In (Ev (SetViewport vp) r) (snd (run (screenshot argv) eng)) ->
     exists v w h,
       Argv.viewport argv = Some v /\ viewportForm v w h /\
       vp = {| width := parseInt w; height := parseInt h |}) /\
  countCalls isSetViewport (snd (run (print argv) eng)) = 0%nat /\
  countCalls isSetViewport (snd (run (bulkPrint argv) eng)) = 0%nat.
Proof.
  split; [|split].
  - unfold_op. branches.
    all: intros vp r Hin; in_trace Hin.
    all: match goal with
         | Hv : Argv.viewport _ = Some ?v,
           Hm : matchViewport ?v = Some (?w, ?h) |- _ =>
             exists v, w, h; repeat split; try reflexivity;
             now apply matchViewport_form
         end.
  - unfold_op. branches. all: reflexivity.
  - assert (H : Only eng (fun c => isSetViewport c = false) (bulkPrint argv)).
    { unfold bulkPrint. walk; try reflexivity.
      apply Only_bulkLoop. intros pdf _. repeat split. }
    apply countCalls_none. exact (H []).
Qed.

End CallProperties.

(* ------------------------------------------------------------------ *)
(** ** The viewport pattern and its numbers *)

(** X13. The viewport pattern accepts exactly the strings made of decimal
    digits, an [x] or [X] and decimal digits; its two groups are these
    digit runs, and no string has two such readings. *)
Theorem viewport_pattern_exact (s w h : string) :
  (matchViewport s = Some (w, h) <-> viewportForm s w h) /\
  (forall w' h', viewportForm s w h -> viewportForm s w' h' -> w' = w /\ h' = h).
Proof.
  split.
  - apply matchViewport_form.
  - intros w' h' H H'. apply matchViewport_form in H, H'.
    rewrite H in H'. now inversion H'.
Qed.

Lemma digitValue_nonneg (c : ascii) : isDigit c = true -> 0 <= digitValue c.
Proof.
  unfold isDigit, digitValue. cbv zeta. intros H.
  apply andb_true_iff in H as [H _]. apply Nat.leb_le in H.
  apply Nat2Z.inj_le in H. simpl Z.of_nat in H.
  revert H. generalize (Z.of_nat (nat_of_ascii c)). intros n H.
  apply Z.le_0_sub. exact H.
Qed.

Lemma decimalValue_nonneg (s : string) (acc : Z) :
  allDigits s = true -> 0 <= acc -> 0 <= decimalValue acc s.
Proof.
  revert acc. induction s as [|c s IH]; intros acc Hd Hacc; [assumption|].
  simpl in Hd. apply andb_true_iff in Hd as [Hc Hs].
  change (0 <= decimalValue (10 * acc + digitValue c) s).
  apply IH; [assumption|].
  pose proof (digitValue_nonneg c Hc) as Hv. lia.
Qed.

Lemma toDouble_nonneg (n z : Z) : 0 <= n -> toDouble n = Finite z -> 0 <= z.
Proof.
  intros Hn. unfold toDouble. destruct (n <? 2 ^ 53).
  - intros H; inversion H; subst. assumption.
  - set (e := Z.log2 n - 52). set (q := n / 2 ^ e).
    assert (Hp : 0 <= 2 ^ e) by apply Z.pow_nonneg, Z.le_0_2 || (apply Z.pow_nonneg; lia).
    assert (Hq : 0 <= q) by (apply Z_div_nonneg_nonneg; assumption).
    destruct ((2 ^ (e - 1) <? n mod 2 ^ e)
              || (n mod 2 ^ e =? 2 ^ (e - 1)) && Z.odd q);
      match goal with
      | |- context [2 ^ 1024 <=? ?v] => destruct (2 ^ 1024 <=? v)
      end; try discriminate; intros H; inversion H; subst; nia.
Qed.

Lemma toDouble_number (n : Z) : toDouble n <> NaN.
Proof.
  unfold toDouble. destruct (n <? 2 ^ 53); [discriminate|].
  match goal with
  | |- context [2 ^ 1024 <=? ?v] => destruct (2 ^ 1024 <=? v)
  end; discriminate.
Qed.

Lemma parseInt_of_digits (w : string) :
  w <> EmptyString -> allDigits w = true -> parseInt w = toDouble (decimalValue 0 w).
Proof.
  intros Hne Hd. unfold parseInt. rewrite spanDigits_all by assumption.
  destruct w; [congruence | reflexivity].
Qed.

(** X14. The numbers handed to [page.setViewport] for a matching viewport
    string are never NaN and never negative, and leading zeros of a digit
    run do not change the number read from it. *)
Theorem viewport_numbers (v w h : string) :
  matchViewport v = Some (w, h) ->
  (parseInt w <> NaN /\ parseInt h <> NaN) /\
  (forall z, parseInt w = Finite z \/ parseInt h = Finite z -> 0 <= z) /\
  parseInt (String "0" w) = parseInt w /\
  parseInt (String "0" h) = parseInt h.
Proof.
  intros Hm. apply matchViewport_form in Hm.
  destruct Hm as (sep & _ & _ & Hw & Hh & Hdw & Hdh).
  rewrite (parseInt_of_digits Hw Hdw), (parseInt_of_digits Hh Hdh).
  split; [split; apply toDouble_number|]. split.
  - intros z [Hz | Hz]; apply toDouble_nonneg in Hz; auto;
      apply decimalValue_nonneg; auto; lia.
  - split; rewrite parseInt_of_digits; try discriminate; try reflexivity;
      simpl; assumption.
Qed.

(* ------------------------------------------------------------------ *)
(** ** The footer template of a batch entry *)

Lemma unescapeQuotes_step (a b : ascii) (r : string) :
  unescapeQuotes (String a (String b r))
  = if Ascii.eqb a backslash && Ascii.eqb b dquote
    then String dquote (unescapeQuotes r)
    else String a (unescapeQuotes (String b r)).
Proof. reflexivity. Qed.

Lemma unescapeQuotes_by_length (P : string -> Prop) :
  P EmptyString ->
  (forall a, P (String a EmptyString)) ->
  (forall a b r, P r -> P (String b r) -> P (String a (String b r))) ->
  forall s, P s.
Proof.
  intros H0 H1 H2.
  assert (H : forall s, P s /\ forall a, P (String a s)).
  { induction s as [|b r [IHr IHbr]]; split; auto. }
  intros s. apply H.
Qed.

Lemma dropBackslashes_cons (a : ascii) (s : string) :
  dropBackslashes (String a s)
  = if Ascii.eqb a backslash then dropBackslashes s
    else String a (dropBackslashes s).
Proof. reflexivity. Qed.

(** X15. Unescaping a footer template removes backslashes only, one before
    each double quote it unescapes: without backslashes the result is
    that of the template, a template without backslash is unchanged, and
    the result is empty for the empty template alone. *)
Theorem unescapeQuotes_drops_backslashes_only (s : string) :
  dropBackslashes (unescapeQuotes s) = dropBackslashes s /\
  (hasChar backslash s = false -> unescapeQuotes s = s) /\
  (unescapeQuotes s = EmptyString <-> s = EmptyString).
Proof.
  induction s as [| a | a b r IHr IHbr] using unescapeQuotes_by_length.
  - repeat split; auto.
  - repeat split; auto; discriminate.
  - rewrite unescapeQuotes_step.
    destruct IHr as (Hr & _ & _). destruct IHbr as (Hbr & Hsame & _).
    destruct (Ascii.eqb a backslash) eqn:Ea; simpl andb.
    + destruct (Ascii.eqb b dquote) eqn:Eb.
      * apply Ascii.eqb_eq in Ea, Eb. subst a b.
        split; [|split; [|split]]; try discriminate.
        simpl. now rewrite Hr.
      * split; [|split; [|split]]; try discriminate.
        -- rewrite (dropBackslashes_cons a (unescapeQuotes (String b r))),
             (dropBackslashes_cons a (String b r)), Ea. exact Hbr.
        -- simpl. rewrite Ea. discriminate.
    + split; [|split; [|split]]; try discriminate.
      * rewrite (dropBackslashes_cons a (unescapeQuotes (String b r))),
          (dropBackslashes_cons a (String b r)), Ea. now rewrite Hbr.
      * intros Hno. simpl in Hno. rewrite Ea in Hno. simpl in Hno.
        now rewrite Hsame.
Qed.

Lemma unescapeQuotes_empty (s : string) :
  unescapeQuotes s = EmptyString <-> s = EmptyString.
Proof.
  destruct s as [|a [|b r]]; simpl; split; try reflexivity; try discriminate.
  destruct (Ascii.eqb a backslash && Ascii.eqb b dquote); discriminate.
Qed.

(* ------------------------------------------------------------------ *)
(** ** The flag tables *)

Lemma flagOf_app (name : string) (a b : Builder) :
  flagOf name (a ++ b)
  = match flagOf name a with
    | Some f => Some f
    | None => flagOf name b
    end.
Proof.
  induction a as [|[k f] a IH]; simpl; [reflexivity|].
  destruct (String.eqb k name); [reflexivity | exact IH].
Qed.

(** X17. Every common option is a flag of the three commands, with the
    type and default of the common table; no command declares a flag
    twice; and every flag of bulk-print other than the paper format is a
    flag of print with the same type and default. *)
Theorem flag_tables_agree (name : string) (f : Flag) :
  (flagOf name commonOptions = Some f ->
     flagOf name printBuilder = Some f /\
     flagOf name screenshotBuilder = Some f /\
     flagOf name bulkPrintBuilder = Some f) /\
  (NoDup (map fst printBuilder) /\ NoDup (map fst screenshotBuilder) /\
   NoDup (map fst bulkPrintBuilder)) /\
  (name <> "format" -> flagOf name bulkPrintBuilder = Some f ->
     flagOf name printBuilder = Some f).
Proof.
  split; [|split].
  - intros H. unfold printBuilder, screenshotBuilder, bulkPrintBuilder.
    rewrite !flagOf_app, H. auto.
  - repeat split;
      repeat (constructor; [simpl; intuition discriminate|]); constructor.
  - intros Hname. unfold printBuilder, bulkPrintBuilder. rewrite !flagOf_app.
    destruct (flagOf name commonOptions); [auto|]. cbn -[String.eqb].
    repeat match goal with
           | |- context [String.eqb ?k name] =>
               destruct (String.eqb_spec k name) as [<-|];
               [cbn; intros; congruence|]
           end.
    intros H; discriminate H.
Qed.

(** X16. In every render of a batch run the header/footer switch is on
    exactly when the footer template handed to the engine is not empty,
    and no header template is handed over. *)
Theorem bulkPrint_footer_switch_matches_template (fileUrl : string -> string)
  (eng : Engine) (argv : Argv.t) :
  Forall (fun o => (Pdf.displayHeaderFooter o = true <->
                    Pdf.footerTemplate o <> EmptyString) /\
                   Pdf.headerTemplate o = None)
         (pdfCalls (snd (run (bulkPrint fileUrl argv) eng))).
Proof.
  eapply Forall_impl; [|apply bulkPrint_pdf_calls].
  simpl. intros o (pdf & _ & ->). split; [|reflexivity].
  unfold bulkPdfOptions; simpl. rewrite unescapeQuotes_empty.
  destruct (Manifest.footerTemplate (Manifest.pdfObject pdf));
    unfold truthyString, truthy; split; intros H; try congruence; discriminate.
Qed.

(* ------------------------------------------------------------------ *)
(** ** The further properties on concrete runs *)

Lemma bulkPrint_manifest_order_witness :
  let argv := Sample.argv "a.html" None EmptyString None true in
  let eng := Sample.healthy (Some [Sample.entry "<i>f</i>"; Sample.entry EmptyString]) in
  exists n m : nat,
    (m <= n <= m + 1)%nat /\
    gotoCalls (snd (run (Sample.bulkPrint argv) eng))
    = map (fun pdf => Npm.fileUrl (Manifest.htmlFile pdf)) (firstn n (entriesOf eng argv)) /\
    pdfCalls (snd (run (Sample.bulkPrint argv) eng))
    = map (bulkPdfOptions argv) (firstn m (entriesOf eng argv)) /\
    firstn n (entriesOf eng argv) = entriesOf eng argv /\
    firstn m (entriesOf eng argv) = entriesOf eng argv.
Proof.
  intros argv eng.
  destruct (bulkPrint_manifest_order Npm.fileUrl eng argv)
    as (n & m & Hnm & Hg & Hp & Hret).
  exists n, m. split; [exact Hnm|]. split; [exact Hg|]. split; [exact Hp|].
  apply Hret. reflexivity.
Defined.

Lemma bulkPrint_without_entries_witness :
  let argv := Sample.argv "a.html" None EmptyString None true in
  gotoCalls (snd (run (Sample.bulkPrint argv) (Sample.healthy None))) = [] /\
  pdfCalls (snd (run (Sample.bulkPrint argv) (Sample.healthy None))) = [] /\
  ~ In BrowserClose (calls (snd (run (Sample.bulkPrint argv) (Sample.healthy None)))) /\
  fst (run (Sample.bulkPrint argv) (Sample.healthy None)) = Raised notIterable.
Proof.
  intros argv.
  destruct (@bulkPrint_without_entries Npm.fileUrl (Sample.healthy None) argv eq_refl)
    as (Hg & Hp & Hc & Hr).
  split; [exact Hg|]. split; [exact Hp|]. split; [exact Hc|].
  apply Hr. simpl. right. right. left. reflexivity.
Defined.

Lemma bulkPrint_single_browser_witness :
  let argv := Sample.argv "a.html" None EmptyString None true in
  let eng := Sample.healthy (Some [Sample.entry "<i>f</i>"; Sample.entry EmptyString]) in
  hd_error (snd (run (Sample.bulkPrint argv) eng))
  = Some (Ev (ReadBatchFile "batch.json") Completed).
Proof.
  intros argv eng.
  destruct (bulkPrint_single_browser Npm.fileUrl eng argv) as (_ & _ & Hread).
  apply Hread. reflexivity.
Defined.

Lemma handlers_return_or_exit_one_witness :
  let argv := Sample.argv "a.html" None EmptyString None true in
  countCalls isLog
    (snd (run (printHandler Npm.isUrl Npm.parseUrl Npm.toString Npm.fileUrl argv)
              (Sample.healthy None)))
  = 0%nat.
Proof.
  intros argv.
  destruct (handlers_return_or_exit_one Npm.isUrl Npm.parseUrl Npm.toString
              Npm.fileUrl (Sample.healthy None) argv) as ((_ & _ & Hquiet) & _).
  apply Hquiet. reflexivity.
Defined.

Lemma cookie_set_before_navigation_witness :
  let argv := withCookie (Some "sid:42")
                (Sample.argv "https://example.com/" None EmptyString None true) in
  exists cookies,
    buildCookies "https://example.com/" "sid:42" = Normal cookies /\
    In (Ev (SetCookie cookies) Completed)
       (beforeGoto (snd (run (Sample.print argv) (Sample.healthy None)))).
Proof.
  intros argv.
  destruct (@cookie_set_before_navigation _ Npm.isUrl Npm.parseUrl Npm.toString
              Npm.fileUrl (Sample.healthy None) argv "sid:42" eq_refl)
    as [Hprint _].
  - discriminate.
  - apply Hprint. discriminate.
Defined.

Lemma malformed_cookie_stops_before_navigation_witness :
  let argv := withCookie (Some "sid")
                (Sample.argv "https://example.com/" None EmptyString None true) in
  gotoCalls (snd (run (Sample.print argv) (Sample.healthy None))) = [] /\
  fst (run (Sample.print argv) (Sample.healthy None)) = Raised cookieError.
Proof.
  intros argv.
  destruct (@malformed_cookie_stops_before_navigation _ Npm.isUrl Npm.parseUrl
              Npm.toString Npm.fileUrl (Sample.healthy None) argv "sid" eq_refl)
    as [(Hg & _ & _ & Hr) _].
  - discriminate.
  - reflexivity.
  - split; [exact Hg|]. apply Hr. simpl. right. left. reflexivity.
Defined.

Lemma no_cookie_no_setCookie_witness :
  let argv := withCookie (Some EmptyString)
                (Sample.argv "https://example.com/" None EmptyString None true) in
  run (Sample.print argv) (Sample.healthy None)
  = run (Sample.print (withCookie None argv)) (Sample.healthy None) /\
  Forall (fun ev => isSetCookie (ev_call ev) = false)
         (snd (run (Sample.print argv) (Sample.healthy None))) /\
  exists c, In (Ev c (Threw Sample.timeoutError))
               (snd (run (Sample.print argv) Sample.navigationTimesOut)).
Proof.
  intros argv.
  destruct (@no_cookie_no_setCookie _ Npm.isUrl Npm.parseUrl Npm.toString
              Npm.fileUrl (Sample.healthy None) argv eq_refl)
    as ([Hsame _] & [Hprint _] & _ & _).
  destruct (@no_cookie_no_setCookie _ Npm.isUrl Npm.parseUrl Npm.toString
              Npm.fileUrl Sample.navigationTimesOut argv eq_refl)
    as (_ & _ & Herr & _).
  split; [exact Hsame|]. split; [exact Hprint|].
  apply Herr. reflexivity.
Defined.

Lemma screenshot_output_sink_witness :
  let eng := Sample.healthy None in
  (filesWritten
     (snd (run (Sample.screenshot (Sample.argv "a.html" None EmptyString None true)) eng))
   = [] /\
   stdoutWrites
     (snd (run (Sample.screenshot (Sample.argv "a.html" None EmptyString None true)) eng))
   = [Sample.bytes]) /\
  (stdoutWrites
     (snd (run (Sample.screenshot
                  (Sample.argv "a.html" (Some "a.png") EmptyString None true)) eng))
   = [] /\
   filesWritten
     (snd (run (Sample.screenshot
                  (Sample.argv "a.html" (Some "a.png") EmptyString None true)) eng))
   = [("a.png", Sample.bytes)]).
Proof.
  intros eng.
  pose proof (fun output =>
    screenshot_output_sink Npm.isUrl Npm.parseUrl Npm.toString Npm.fileUrl eng
      (Sample.argv "a.html" output EmptyString None true)) as H.
  split.
  - destruct (H None) as [Hnone _]. destruct (Hnone eq_refl) as [Hfiles Hout].
    split; [exact Hfiles|].
    apply (Hout {| Shot.path := None; Shot.fullPage := true;
                   Shot.omitBackground := false |}).
    simpl. right. right. right. left. reflexivity.
  - destruct (H (Some "a.png")) as [_ Hsome].
    destruct (Hsome "a.png" eq_refl) as [Hout Hfiles]; [discriminate|].
    split; [exact Hout|].
    apply (Hfiles {| Shot.path := Some "a.png"; Shot.fullPage := true;
                     Shot.omitBackground := false |}).
    simpl. right. right. right. left. reflexivity.
Defined.

Lemma single_document_renders_once_witness :
  let argv := Sample.argv "a.html" None EmptyString None true in
  (List.length (gotoCalls (snd (run (Sample.print argv) (Sample.healthy None)))) = 1%nat /\
   rendered (snd (run (Sample.print argv) (Sample.healthy None)))
   = [printPdfOptions argv]) /\
  (List.length (gotoCalls (snd (run (Sample.screenshot argv) (Sample.healthy None))))
   = 1%nat /\
   List.length (shotCalls (snd (run (Sample.screenshot argv) (Sample.healthy None))))
   = 1%nat).
Proof.
  intros argv.
  destruct (single_document_renders_once Npm.isUrl Npm.parseUrl Npm.toString
              Npm.fileUrl (Sample.healthy None) argv)
    as ((_ & _ & _ & Hprint) & (_ & _ & _ & Hshot)).
  split; [apply Hprint | apply Hshot]; reflexivity.
Defined.

Lemma viewport_pattern_exact_witness :
  viewportForm "800X600" "800" "600" /\
  (forall w' h', viewportForm "800X600" w' h' -> w' = "800" /\ h' = "600").
Proof.
  destruct (viewport_pattern_exact "800X600" "800" "600") as [Hiff Huniq].
  assert (Hform : viewportForm "800X600" "800" "600") by (apply Hiff; reflexivity).
  split; [exact Hform|]. intros w' h'. now apply Huniq.
Defined.

Lemma viewport_numbers_witness :
  (parseInt "0800" <> NaN /\ parseInt "600" <> NaN) /\
  (forall z, parseInt "0800" = Finite z \/ parseInt "600" = Finite z -> 0 <= z) /\
  parseInt "00800" = parseInt "0800" /\
  parseInt "0600" = parseInt "600".
Proof.
  apply (@viewport_numbers "0800x600" "0800" "600"). reflexivity.
Defined.

Lemma unescapeQuotes_drops_backslashes_only_witness :
  unescapeQuotes "<i>page</i>" = "<i>page</i>".
Proof.
  destruct (unescapeQuotes_drops_backslashes_only "<i>page</i>") as (_ & Hsame & _).
  apply Hsame. reflexivity.
Defined.

Lemma bulkPrint_footer_switch_matches_template_witness :
  let argv := Sample.argv "a.html" None EmptyString None true in
  let eng := Sample.healthy (Some [Sample.entry "<i>f</i>"]) in
  Pdf.footerTemplate (bulkPdfOptions argv (Sample.entry "<i>f</i>")) <> EmptyString.
Proof.
  intros argv eng.
  pose proof (bulkPrint_footer_switch_matches_template Npm.fileUrl eng argv) as H.
  rewrite Forall_forall in H.
  destruct (H (bulkPdfOptions argv (Sample.entry "<i>f</i>"))) as [Hiff _].
  - simpl. left. reflexivity.
  - apply Hiff. reflexivity.
Defined.

Lemma flag_tables_agree_witness :
  (flagOf "cookie" printBuilder = Some (mkFlag StringFlag NoDefault) /\
   flagOf "cookie" screenshotBuilder = Some (mkFlag StringFlag NoDefault) /\
   flagOf "cookie" bulkPrintBuilder = Some (mkFlag StringFlag NoDefault)) /\
  flagOf "margin-bottom" printBuilder = Some (mkFlag Untyped (DefaultString "14.11mm")).
Proof.
  split.
  - destruct (flag_tables_agree "cookie" (mkFlag StringFlag NoDefault)) as [Hcommon _].
    apply Hcommon. reflexivity.
  - destruct (flag_tables_agree "margin-bottom"
                (mkFlag Untyped (DefaultString "14.11mm"))) as (_ & _ & Hbulk).
    apply Hbulk; [discriminate | reflexivity].
Defined.

Lemma setViewport_only_for_matching_spec_witness :
  let argv := Sample.argv "a.html" None EmptyString (Some "800x600") true in
  exists v w h,
    Argv.viewport argv = Some v /\ viewportForm v w h /\
    {| width := Finite 800; height := Finite 600 |}
    = {| width := parseInt w; height := parseInt h |}.
Proof.
  intros argv.
  destruct (setViewport_only_for_matching_spec Npm.isUrl Npm.parseUrl Npm.toString
              Npm.fileUrl (Sample.healthy None) argv) as [Hshot _].
  apply (Hshot {| width := Finite 800; height := Finite 600 |} Completed).
  simpl. right. right. left. reflexivity.
Defined.
